(** * Comment extraction scanners of [parse_comments.py]

    A shallow embedding of the three generator functions [c_style],
    [py_style] and [xml_style] and of the dispatcher [check_file], together
    with the properties of them that the specification states.

    A source file is modelled by the list of its lines, as the iteration
    [for line in src_file] delivers them: every line keeps its terminating
    newline, only the last one may lack it.  A generator is modelled by the
    list of the tuples it yields together with the way it ends: normally
    (with the final values of its local variables) or by an exception. *)

From Stdlib Require Import List Sorted ZArith Lia Bool Arith Ascii String.
Import ListNotations.
Open Scope string_scope.
Open Scope list_scope.
Open Scope nat_scope.

(** ** Python string operations used by the source *)

Module PyStr.

(** The characters the source names. *)
Definition tab : ascii := "009"%char.
Definition newline : ascii := "010"%char.
Definition dquote : ascii := "034"%char.
Definition squote : ascii := "039"%char.
Definition backslash : ascii := "092"%char.
Definition hash : ascii := "035"%char.

Definition triple_squote : string := String squote (String squote (String squote "")).
Definition triple_dquote : string := String dquote (String dquote (String dquote "")).

Fixpoint drop (n : nat) (s : string) : string :=
  match n, s with
  | 0, _ => s
  | S _, "" => ""
  | S n', String _ s' => drop n' s'
  end.

Fixpoint take (n : nat) (s : string) : string :=
  match n, s with
  | 0, _ => ""
  | S _, "" => ""
  | S n', String c s' => String c (take n' s')
  end.

(** [s[i:]] and [s[i:j]] for non-negative [i] and [j]. *)
Definition slice_from (s : string) (i : nat) : string := drop i s.
Definition slice (s : string) (i j : nat) : string := take (j - i) (drop i s).

(** [s[i]]: a negative index counts from the end, [None] is IndexError. *)
Definition getitem (s : string) (i : Z) : option ascii :=
  if (0 <=? i)%Z then String.get (Z.to_nat i) s
  else if (- Z.of_nat (length s) <=? i)%Z
       then String.get (Z.to_nat (Z.of_nat (length s) + i)) s
       else None.

(** First occurrence of [sub] in [s], as an offset from the start of [s]. *)
Fixpoint search (sub s : string) : option nat :=
  if prefix sub s then Some 0
  else match s with
       | "" => None
       | String _ s' => option_map S (search sub s')
       end.

(** [s.find(sub, start)]; [None] stands for the result [-1]. *)
Definition find (sub s : string) (start : nat) : option nat :=
  if start <=? length s
  then option_map (fun p => start + p) (search sub (drop start s))
  else None.

(** [sub in s]. *)
Definition contains (sub s : string) : bool :=
  match search sub s with Some _ => true | None => false end.

Fixpoint occurrences (c : ascii) (s : string) : nat :=
  match s with
  | "" => 0
  | String d s' => (if Ascii.eqb d c then 1 else 0) + occurrences c s'
  end.

(** [s.count(c, start, stop)] for a single character [c]. *)
Definition count (c : ascii) (s : string) (start stop : nat) : nat :=
  occurrences c (slice s start stop).

(** [s.endswith(suffix)] and its form with a tuple of suffixes. *)
Definition endswith (s suffix : string) : bool :=
  (length suffix <=? length s) &&
  String.eqb (drop (length s - length suffix) s) suffix.

Definition endswith_any (s : string) (suffixes : list string) : bool :=
  existsb (endswith s) suffixes.

Definition lower_char (c : ascii) : ascii :=
  let n := nat_of_ascii c in
  if (65 <=? n) && (n <=? 90) then ascii_of_nat (n + 32) else c.

Definition upper_char (c : ascii) : ascii :=
  let n := nat_of_ascii c in
  if (97 <=? n) && (n <=? 122) then ascii_of_nat (n - 32) else c.

Fixpoint lower (s : string) : string :=
  match s with
  | "" => ""
  | String c s' => String (lower_char c) (lower s')
  end.

Fixpoint upper (s : string) : string :=
  match s with
  | "" => ""
  | String c s' => String (upper_char c) (upper s')
  end.

End PyStr.
Import PyStr.

(** ** Generators *)

(** The exceptions a scanner body can raise. *)
Inductive exn : Type :=
| UnboundLocalError (name : string)
| IndexError.

(** The yielded tuple [(comment, line number, index within the line)]. *)
Record comment : Type := Yield { text : string; lineno : nat; column : Z }.

(** How one pass through the body of the [while] loop ends: it falls through
    to [index += 1], it leaves the loop by [break], or it raises. *)
Inductive control (V : Type) : Type :=
| Next (v : V) (index : nat)
| Break (v : V)
| Raise (e : exn).
Arguments Next {V} v index.
Arguments Break {V} v.
Arguments Raise {V} e.

Inductive outcome (V : Type) : Type :=
| Done (v : V)
| Raised (e : exn)
| OutOfFuel.
Arguments Done {V} v.
Arguments Raised {V} e.
Arguments OutOfFuel {V}.

(** The skeleton the three generators share: for every line, the test that
    skips it, then [index = 0] and the loop [while index < len(line) - 1]
    around the body, then [line_num += 1]. *)
Section Skeleton.
Context {V : Type}.
Variable skip : string -> V -> bool.
Variable body : string -> nat -> V -> nat -> list comment * control V.

Fixpoint while (fuel : nat) (line : string) (line_num : nat) (v : V)
         (index : nat) : list comment * outcome V :=
  if index <? length line - 1 then
    match fuel with
    | 0 => ([], OutOfFuel)
    | S fuel' =>
        match body line line_num v index with
        | (out, Next v' index') =>
            let (out', o) := while fuel' line line_num v' (index' + 1) in
            (out ++ out', o)
        | (out, Break v') => (out, Done v')
        | (out, Raise e) => (out, Raised e)
        end
    end
  else ([], Done v).

Definition scan_line (line : string) (line_num : nat) (v : V)
  : list comment * outcome V :=
  if skip line v then ([], Done v)
  else while (length line) line line_num v 0.

Fixpoint scan_lines (lines : list string) (line_num : nat) (v : V)
  : list comment * outcome V :=
  match lines with
  | [] => ([], Done v)
  | line :: rest =>
      match scan_line line line_num v with
      | (out, Done v') =>
          let (out', o) := scan_lines rest (line_num + 1) v' in
          (out ++ out', o)
      | (out, o) => (out, o)
      end
  end.
End Skeleton.

(** What is proved of a generator: an invariant [Inv] of its local
    variables, a property [P] of the tuples yielded while a given line is
    scanned, and the exceptions [Allowed] to it. *)
Section SkeletonSpec.
Context {V : Type}.
Variable body : string -> nat -> V -> nat -> list comment * control V.
Variable Inv : V -> Prop.
Variable P : string -> nat -> comment -> Prop.
Variable Allowed : exn -> Prop.

Definition ends_well (o : outcome V) : Prop :=
  match o with
  | Done v => Inv v
  | Raised e => Allowed e
  | OutOfFuel => False
  end.

(** One pass through the body, at an index the loop admits: it yields
    tuples with [P], keeps [Inv], never moves the index back, and raises
    nothing but what [Allowed] admits. *)
Definition body_ok : Prop :=
  forall line line_num v index out ctl,
    Inv v -> index < length line - 1 ->
    body line line_num v index = (out, ctl) ->
    Forall (P line line_num) out /\
    match ctl with
    | Next v' index' => Inv v' /\ index <= index'
    | Break v' => Inv v'
    | Raise e => Allowed e
    end.
End SkeletonSpec.

(** Number of spaces represented by a TAB character: the value the module
    gives its variable [SPACES_FOR_TAB], which a user may reassign. *)
Definition SPACES_FOR_TAB_default : Z := 4.

(** ** [c_style] *)

Module CStyle.
Section WithTab.
Variable SPACES_FOR_TAB : Z.

Record vars : Type := Vars { state : nat; string_start : option ascii }.

Definition init : vars := {| state := 0; string_start := None |}.

Definition set_state (v : vars) (s : nat) : vars :=
  {| state := s; string_start := string_start v |}.

Definition skip (line : string) (v : vars) : bool :=
  forallb (fun x => negb (contains x line)) ["//"; "/*"; "*/"]
  && negb (state v =? 2).

Definition body (line : string) (line_num : nat) (v : vars) (index : nat)
  : list comment * control vars :=
  if state v =? 0 then
    if (slice line index (index + 2) =? "//")%string then
      ([Yield (slice_from line (index + 2)) line_num
              (Z.of_nat (index + 2)
               + Z.of_nat (count tab line 0 (index + 2)) * (SPACES_FOR_TAB - 1))],
       Break v)
    else if (slice line index (index + 2) =? "/*")%string then
      match find "*/" line (index + 2) with
      | None =>
          ([Yield (slice_from line (index + 2)) line_num
                  (Z.of_nat (index + 2)
                   + Z.of_nat (count tab line 0 (index + 2)) * (SPACES_FOR_TAB - 1))],
           Break (set_state v 2))
      | Some pos =>
          ([Yield (slice line (index + 2) pos) line_num
                  (Z.of_nat (index + 2)
                   + Z.of_nat (count tab line 0 (index + 2)) * (SPACES_FOR_TAB - 1))],
           Next (set_state v 0) (pos + 1))
      end
    else
      match getitem line (Z.of_nat index) with
      | None => ([], Raise IndexError)
      | Some c =>
          if Ascii.eqb c dquote then
            ([], Next {| state := 1; string_start := Some dquote |} index)
          else if Ascii.eqb c squote then
            ([], Next {| state := 1; string_start := Some squote |} index)
          else ([], Next v index)
      end
  else if state v =? 1 then
    match getitem line (Z.of_nat index) with
    | None => ([], Raise IndexError)
    | Some c =>
        match string_start v with
        | None => ([], Raise (UnboundLocalError "string_start"))
        | Some q =>
            if Ascii.eqb c q then
              match getitem line (Z.of_nat index - 1) with
              | None => ([], Raise IndexError)
              | Some p =>
                  if negb (Ascii.eqb p backslash)
                  then ([], Next (set_state v 0) index)
                  else ([], Next v index)
              end
            else ([], Next v index)
        end
    end
  else if state v =? 2 then
    match find "*/" line index with
    | None =>
        ([Yield (slice_from line index) line_num (Z.of_nat index)], Break v)
    | Some pos =>
        ([Yield (slice line index pos) line_num (Z.of_nat index)],
         Next (set_state v 0) (pos + 1))
    end
  else ([], Next v index).

Definition run (lines : list string) : list comment * outcome vars :=
  scan_lines skip body lines 1 init.

(** The same generator without the test that skips a line. *)
Definition run_noskip (lines : list string) : list comment * outcome vars :=
  scan_lines (fun _ _ => false) body lines 1 init.
End WithTab.

(** In state 1 the local [string_start] holds one of the two quotes. *)
Definition quoted (v : vars) : Prop :=
  state v = 1 ->
  string_start v = Some dquote \/ string_start v = Some squote.
End CStyle.

Definition c_style := CStyle.run.

(** ** [py_style] *)

Module PyStyle.
Section WithTab.
Variable SPACES_FOR_TAB : Z.

(** The locals [block_start] and [comment_block] are first assigned inside
    the loop: [None] is a local that is still unbound, and reading it
    raises UnboundLocalError. *)
Record vars : Type := Vars {
  state : nat;
  block_start : option string;
  comment_block : option bool
}.

Definition init : vars :=
  {| state := 0; block_start := None; comment_block := None |}.

Definition set_state (v : vars) (s : nat) : vars :=
  {| state := s; block_start := block_start v;
     comment_block := comment_block v |}.

Definition open_block (v : vars) (delim : string) : vars :=
  {| state := state v; block_start := Some delim;
     comment_block := Some true |}.

Definition clear_comment_block (v : vars) : vars :=
  {| state := state v; block_start := block_start v;
     comment_block := Some false |}.

Definition skip (line : string) (v : vars) : bool :=
  forallb (fun x => negb (contains x line))
          [String hash ""; triple_squote; triple_dquote]
  && negb (state v =? 1).

(** The chain [if line[index] == '#' ... elif ... elif ...] of state 0. *)
Definition first_if (line : string) (line_num : nat) (v : vars)
           (index : nat) (c : ascii) : list comment * vars :=
  if Ascii.eqb c hash then
    ([Yield (slice_from line (index + 1)) line_num
            (Z.of_nat (index + 1)
             + Z.of_nat (count tab line 0 (index + 2)) * (SPACES_FOR_TAB - 1))],
     set_state v 0)
  else if (slice line index (index + 3) =? triple_squote)%string then
    ([], open_block v triple_squote)
  else if (slice line index (index + 3) =? triple_dquote)%string then
    ([], open_block v triple_dquote)
  else ([], v).

(** The statement [if comment_block: ...] that follows the chain. *)
Definition second_if (line : string) (line_num : nat) (v : vars)
           (index : nat) : list comment * control vars :=
  match comment_block v with
  | None => ([], Raise (UnboundLocalError "comment_block"))
  | Some false => ([], Next v index)
  | Some true =>
      match block_start v with
      | None => ([], Raise (UnboundLocalError "block_start"))
      | Some delim =>
          match find delim line (index + 3) with
          | None =>
              ([Yield (slice_from line (index + 3)) line_num
                      (Z.of_nat (index + 3)
                       + Z.of_nat (count tab line 0 (index + 2))
                         * (SPACES_FOR_TAB - 1))],
               Break (set_state (clear_comment_block v) 1))
          | Some pos =>
              ([Yield (slice line (index + 3) pos) line_num
                      (Z.of_nat (index + 3)
                       + Z.of_nat (count tab line 0 (index + 2))
                         * (SPACES_FOR_TAB - 1))],
               Next (set_state (clear_comment_block v) 0) (pos + 2))
          end
      end
  end.

Definition body (line : string) (line_num : nat) (v : vars) (index : nat)
  : list comment * control vars :=
  if state v =? 0 then
    match getitem line (Z.of_nat index) with
    | None => ([], Raise IndexError)
    | Some c =>
        let (out1, v1) := first_if line line_num v index c in
        let (out2, ctl) := second_if line line_num v1 index in
        (out1 ++ out2, ctl)
    end
  else if state v =? 1 then
    match block_start v with
    | None => ([], Raise (UnboundLocalError "block_start"))
    | Some delim =>
        match find delim line index with
        | None =>
            ([Yield (slice_from line index) line_num (Z.of_nat index)],
             Break v)
        | Some pos =>
            ([Yield (slice line index pos) line_num (Z.of_nat index)],
             Next (set_state v 0) (pos + 2))
        end
    end
  else ([], Next v index).

Definition run (lines : list string) : list comment * outcome vars :=
  scan_lines skip body lines 1 init.
End WithTab.

(** Outside the statement [if comment_block:] the flag is never set, and
    in state 1 the local [block_start] is bound. *)
Definition tidy (v : vars) : Prop :=
  comment_block v <> Some true /\ (state v = 1 -> block_start v <> None).

(** The one exception the generator raises: reading [comment_block]
    before any triple quote has assigned it. *)
Definition unbound_flag (e : exn) : Prop :=
  e = UnboundLocalError "comment_block".

(** The ways a tuple comes about at [index] of a line: after a [#], after
    an opening triple quote, or inside a block left open. *)
Definition hash_at (tw : Z) (line : string) (line_num index : nat)
           (r : comment) : Prop :=
  getitem line (Z.of_nat index) = Some hash /\
  r = Yield (slice_from line (index + 1)) line_num
            (Z.of_nat (index + 1)
             + Z.of_nat (count tab line 0 (index + 2)) * (tw - 1)).

Definition triple_at (tw : Z) (line : string) (line_num index : nat)
           (r : comment) : Prop :=
  (slice line index (index + 3) = triple_squote \/
   slice line index (index + 3) = triple_dquote) /\
  (text r = slice_from line (index + 3) \/
   exists pos, text r = slice line (index + 3) pos) /\
  lineno r = line_num /\
  column r = (Z.of_nat (index + 3)
              + Z.of_nat (count tab line 0 (index + 2)) * (tw - 1))%Z.

Definition continued_at (line : string) (line_num index : nat)
           (r : comment) : Prop :=
  (text r = slice_from line index \/
   exists pos, text r = slice line index pos) /\
  lineno r = line_num /\
  column r = Z.of_nat index.

Definition yielded_at (tw : Z) (line : string) (line_num : nat)
           (r : comment) : Prop :=
  exists index,
    index < length line - 1 /\
    (hash_at tw line line_num index r \/
     triple_at tw line line_num index r \/
     continued_at line line_num index r).
End PyStyle.

Definition py_style := PyStyle.run.

(** ** [xml_style] *)

Module XmlStyle.
Section WithTab.
Variable SPACES_FOR_TAB : Z.

Record vars : Type := Vars { state : nat }.

Definition init : vars := {| state := 0 |}.

Definition skip (line : string) (v : vars) : bool :=
  forallb (fun x => negb (contains x line)) ["<!--"; "-->"]
  && negb (state v =? 1).

Definition body (line : string) (line_num : nat) (v : vars) (index : nat)
  : list comment * control vars :=
  if state v =? 0 then
    if (slice line index (index + 4) =? "<!--")%string then
      match find "-->" line (index + 3) with
      | None =>
          ([Yield (slice_from line (index + 4)) line_num
                  (Z.of_nat (index + 4)
                   + Z.of_nat (count tab line 0 (index + 2))
                     * (SPACES_FOR_TAB - 1))],
           Break {| state := 1 |})
      | Some pos =>
          ([Yield (slice_from line (index + 4)) line_num
                  (Z.of_nat (index + 4))],
           Next {| state := 0 |} (pos + 2))
      end
    else ([], Next v index)
  else if state v =? 1 then
    match find "-->" line index with
    | None =>
        ([Yield (slice_from line index) line_num (Z.of_nat index)], Break v)
    | Some pos =>
        ([Yield (slice line index pos) line_num (Z.of_nat index)],
         Next {| state := 0 |} (pos + 2))
    end
  else ([], Next v index).

Definition run (lines : list string) : list comment * outcome vars :=
  scan_lines skip body lines 1 init.
End WithTab.
End XmlStyle.

Definition xml_style := XmlStyle.run.

(** ** [check_file] *)

(** The generator function [check_file] hands the path to. *)
Inductive scanner : Type := c_style_fn | py_style_fn | xml_style_fn.

Definition check_file (src_file : string) : option scanner :=
  if endswith (lower src_file) ".py" then Some py_style_fn
  else if endswith_any (lower src_file) [".cpp"; ".c"; ".h"] then Some c_style_fn
  else if endswith_any (lower src_file) [".xml"; ".html"; ".htm"] then Some xml_style_fn
  else None.

(** The tuples a generator yields, whatever way it ends. *)
Definition yielded {V : Type} (r : list comment * outcome V) : list comment := fst r.
Definition ending {V : Type} (r : list comment * outcome V) : outcome V := snd r.

(** ** What the statements below speak of *)

(** The length of a line once every TAB is written as [tw] spaces. *)
Definition expanded_length (tw : Z) (line : string) : Z :=
  Z.of_nat (length line) + Z.of_nat (occurrences tab line) * (tw - 1).

(** A tuple yielded while [line], numbered [line_num], is scanned: it
    carries that number, and for a TAB of at least one space its index is
    inside the line as expanded. *)
Definition placed (tw : Z) (line : string) (line_num : nat) (r : comment) : Prop :=
  lineno r = line_num /\
  ((1 <= tw)%Z -> (0 <= column r <= expanded_length tw line)%Z).

Definition nothing_raised (e : exn) : Prop := False.

(** Two values of the variables of [c_style] in the same state that, inside
    a string, remember the same quote. *)
Definition same_mode (v v' : CStyle.vars) : Prop :=
  CStyle.state v = CStyle.state v' /\
  (CStyle.state v = 1 -> CStyle.string_start v = CStyle.string_start v').

(** Along the run of [c_style] from [v]: every line that its test skips
    would, had the loop scanned it from the variables with which it is
    reached, have ended normally in the mode in which it is reached. *)
Fixpoint skipped_lines_keep_mode (tw : Z) (lines : list string)
         (line_num : nat) (v : CStyle.vars) : Prop :=
  match lines with
  | [] => True
  | line :: rest =>
      (CStyle.skip line v = true ->
       exists v',
         ending (scan_line (fun _ _ => false) (CStyle.body tw)
                           line line_num v) = Done v' /\
         same_mode v v') /\
      match ending (scan_line CStyle.skip (CStyle.body tw) line line_num v) with
      | Done v' => skipped_lines_keep_mode tw rest (line_num + 1) v'
      | _ => True
      end
  end.

(** Two ways a pass through the body, or a loop, ends alike. *)
Definition control_alike (c1 c2 : control CStyle.vars) : Prop :=
  match c1, c2 with
  | Next a i, Next b j => same_mode a b /\ i = j
  | Break a, Break b => same_mode a b
  | Raise e1, Raise e2 => e1 = e2
  | _, _ => False
  end.

Definition outcome_alike (o1 o2 : outcome CStyle.vars) : Prop :=
  match o1, o2 with
  | Done a, Done b => same_mode a b
  | Raised e1, Raised e2 => e1 = e2
  | OutOfFuel, OutOfFuel => True
  | _, _ => False
  end.

(** The last character of a string. *)
Fixpoint last_char (s : string) : option ascii :=
  match s with
  | "" => None
  | String c "" => Some c
  | String _ s' => last_char s'
  end.

(** Pieces of the inputs used as examples. *)
Definition nl : string := String newline "".
Definition quote : string := String dquote "".
Definition tabs (n : nat) (s : string) : string :=
  Nat.iter n (String tab) s.

(** [xml_style] and [py_style] without the test that skips a line. *)
Definition xml_style_noskip (tw : Z) (lines : list string)
  : list comment * outcome XmlStyle.vars :=
  scan_lines (fun _ _ => false) (XmlStyle.body tw) lines 1 XmlStyle.init.

(** A line on which [py_style], in its initial state, makes no pass
    through the body of its loop: the test skips it, or it has at most one
    character. *)
Definition py_idle (line : string) : bool :=
  PyStyle.skip line PyStyle.init || (length line <=? 1).

(** The TAB-expanded position of the raw index [index] of a line. *)
Definition expand (tw : Z) (line : string) (index : nat) : Z :=
  Z.of_nat index + Z.of_nat (count tab line 0 index) * (tw - 1).

(** The indices below [len(line) - 1] at which a line has a [#]. *)
Definition hash_indices (line : string) : list nat :=
  filter (fun i => match String.get i line with
                   | Some c => Ascii.eqb c hash
                   | None => false
                   end)
         (seq 0 (length line - 1)).

(** A tuple whose text is cut from [line] at the raw index [index] and
    whose index is the TAB-expanded position of [index]. *)
Definition exact_at (tw : Z) (line : string) (line_num : nat) (r : comment)
  : Prop :=
  lineno r = line_num /\
  exists index,
    index <= length line /\
    (text r = slice_from line index \/
     exists pos, text r = slice line index pos) /\
    column r = expand tw line index.

(** * Facts about the string operations *)

Module PyStrFacts.

Lemma length_drop (n : nat) (s : string) : length (drop n s) = length s - n.
Proof.
  revert s; induction n as [|n IH]; intros [|c s]; simpl; auto.
Qed.

Lemma length_take (n : nat) (s : string) :
  length (take n s) = Nat.min n (length s).
Proof.
  revert s; induction n as [|n IH]; intros [|c s]; simpl; auto.
Qed.

Lemma drop_drop (n m : nat) (s : string) : drop n (drop m s) = drop (m + n) s.
Proof.
  revert s; induction m as [|m IH]; intros s; simpl; auto.
  destruct s as [|c s]; simpl; auto. destruct n; reflexivity.
Qed.

Lemma slice_window (s : string) (i n : nat) :
  slice s i (i + n) = take n (drop i s).
Proof. unfold slice. f_equal. lia. Qed.

(** A slice that equals a string of [n] characters lies inside the line. *)
Lemma slice_fits (s t : string) (i : nat) :
  slice s i (i + length t) = t -> length t = 0 \/ i + length t <= length s.
Proof.
  rewrite slice_window. intros H.
  apply (f_equal length) in H. rewrite length_take, length_drop in H. lia.
Qed.

Lemma occurrences_take_le (c : ascii) (n : nat) (s : string) :
  occurrences c (take n s) <= occurrences c s.
Proof.
  revert s; induction n as [|n IH]; intros [|d s]; simpl; try lia.
  specialize (IH s). lia.
Qed.

Lemma count_le_occurrences (c : ascii) (s : string) (stop : nat) :
  count c s 0 stop <= occurrences c s.
Proof.
  unfold count, slice. simpl. apply occurrences_take_le.
Qed.

Lemma prefix_take (sub t : string) :
  prefix sub t = true <-> take (length sub) t = sub.
Proof.
  revert t; induction sub as [|a sub IH]; intros t.
  - destruct t; simpl; split; auto.
  - destruct t as [|b t]; simpl; [split; discriminate|].
    destruct (ascii_dec a b) as [->|Hne].
    + rewrite IH. split; [intros ->; reflexivity | intros [=]; assumption].
    + split; [discriminate | intros [=]; congruence].
Qed.

Lemma search_unfold (sub s : string) :
  search sub s =
  if prefix sub s then Some 0
  else match s with
       | "" => None
       | String _ s' => option_map S (search sub s')
       end.
Proof. destruct s; reflexivity. Qed.

Lemma search_none_prefix (sub s : string) :
  search sub s = None -> forall i, i <= length s -> prefix sub (drop i s) = false.
Proof.
  induction s as [|c s IH]; rewrite search_unfold.
  - destruct (prefix sub "") eqn:E; [discriminate|].
    intros _ [|i] _; assumption.
  - destruct (prefix sub (String c s)) eqn:E; [discriminate|].
    destruct (search sub s); [discriminate|].
    intros _ [|i] Hi; [assumption|]. simpl drop. apply IH; auto.
    simpl in Hi. lia.
Qed.

(** A line in which [sub] does not occur has no slice equal to [sub]. *)
Lemma absent_slice (sub s : string) (i : nat) :
  sub <> "" -> contains sub s = false ->
  (slice s i (i + length sub) =? sub)%string = false.
Proof.
  intros Hne H. unfold contains in H.
  destruct (search sub s) eqn:E; [discriminate|].
  apply String.eqb_neq. rewrite slice_window. intros Heq.
  destruct (Nat.le_gt_cases i (length s)) as [Hi|Hi].
  - apply prefix_take in Heq. rewrite (search_none_prefix _ _ E i Hi) in Heq.
    discriminate.
  - apply (f_equal length) in Heq. rewrite length_take, length_drop in Heq.
    destruct sub; [congruence|cbn [length] in Heq; lia].
Qed.

Lemma get_slice1 (s : string) (i : nat) (c : ascii) :
  String.get i s = Some c -> slice s i (i + 1) = String c "".
Proof.
  rewrite slice_window. revert s; induction i as [|i IH]; intros [|d s]; simpl;
    try discriminate.
  - intros [= ->]. reflexivity.
  - apply IH.
Qed.

Lemma absent_char (c : ascii) (s : string) (i : nat) :
  contains (String c "") s = false -> String.get i s <> Some c.
Proof.
  intros H Hget. apply get_slice1 in Hget.
  pose proof (absent_slice (String c "") s i) as A. simpl in A.
  rewrite Hget, String.eqb_refl in A. discriminate A; auto. discriminate.
Qed.

Lemma get_in_range (s : string) (i : nat) :
  i < length s -> exists c, String.get i s = Some c.
Proof.
  revert s; induction i as [|i IH]; intros [|d s]; simpl; try lia.
  - eauto.
  - intros H. apply IH. lia.
Qed.

Lemma getitem_nat (s : string) (i : nat) :
  getitem s (Z.of_nat i) = String.get i s.
Proof.
  unfold getitem. destruct (Z.leb_spec 0 (Z.of_nat i)); [|lia].
  now rewrite Nat2Z.id.
Qed.

Lemma find_ge (sub s : string) (start pos : nat) :
  find sub s start = Some pos -> start <= pos.
Proof.
  unfold find. destruct (start <=? length s); [|discriminate].
  destruct (search sub (drop start s)); simpl; [|discriminate].
  intros [= <-]. lia.
Qed.

Lemma lower_upper_char (c : ascii) : lower_char (upper_char c) = lower_char c.
Proof.
  destruct c as [[] [] [] [] [] [] [] []]; reflexivity.
Qed.

Lemma lower_upper (s : string) : lower (upper s) = lower s.
Proof.
  induction s as [|c s IH]; simpl; [reflexivity|].
  now rewrite lower_upper_char, IH.
Qed.

End PyStrFacts.
Import PyStrFacts.

(** * Facts about the shared skeleton *)

Lemma StronglySorted_le_app (l1 l2 : list nat) :
  StronglySorted le l1 -> StronglySorted le l2 ->
  (forall x y, In x l1 -> In y l2 -> x <= y) ->
  StronglySorted le (l1 ++ l2).
Proof.
  induction 1 as [|a l1 Hs IH Ha]; simpl; intros H2 Hc; [assumption|].
  constructor.
  - apply IH; auto.
  - apply Forall_app; split; [assumption|].
    apply Forall_forall; intros y Hy. apply Hc; auto.
Qed.

Section SkeletonFacts.
Context {V : Type}.
Variable skip : string -> V -> bool.
Variable body : string -> nat -> V -> nat -> list comment * control V.

Variable Inv : V -> Prop.
Variable P : string -> nat -> comment -> Prop.
Variable Allowed : exn -> Prop.



Hypothesis Hbody : body_ok body Inv P Allowed.

Lemma while_ok (fuel : nat) (line : string) (line_num : nat) :
  forall v index,
    Inv v -> length line - 1 - index <= fuel ->
    Forall (P line line_num) (fst (while body fuel line line_num v index)) /\
    ends_well Inv Allowed (snd (while body fuel line line_num v index)).
Proof.
  induction fuel as [|fuel IH]; intros v index Hv Hfuel.
  - simpl. destruct (Nat.ltb_spec index (length line - 1)); [lia|].
    simpl; auto.
  - simpl. destruct (Nat.ltb_spec index (length line - 1)) as [Hlt|Hge];
      [|simpl; auto].
    destruct (body line line_num v index) as [out ctl] eqn:Eb.
    destruct (Hbody _ _ _ _ _ _ Hv Hlt Eb) as [Hout Hctl].
    destruct ctl as [v' index'|v'|e]; simpl; auto.
    destruct Hctl as [Hv' Hle].
    destruct (IH v' (index' + 1) Hv' ltac:(lia)) as [Hrest Hend].
    destruct (while body fuel line line_num v' (index' + 1)) as [out' o].
    simpl in *. split; [apply Forall_app; auto|assumption].
Qed.

Lemma scan_line_ok (line : string) (line_num : nat) (v : V) :
  Inv v ->
  Forall (P line line_num) (fst (scan_line skip body line line_num v)) /\
  ends_well Inv Allowed (snd (scan_line skip body line line_num v)).
Proof.
  intros Hv. unfold scan_line. destruct (skip line v); [simpl; auto|].
  apply while_ok; [assumption|lia].
Qed.

(** Every tuple of the whole run was yielded while some line of the input
    was scanned, under that line's number. *)
Lemma scan_lines_ok (lines : list string) :
  forall line_num v,
    Inv v ->
    Forall (fun r => exists k line,
                nth_error lines k = Some line /\ P line (line_num + k) r)
           (fst (scan_lines skip body lines line_num v)) /\
    ends_well Inv Allowed (snd (scan_lines skip body lines line_num v)).
Proof.
  induction lines as [|line rest IH]; intros line_num v Hv; simpl; auto.
  destruct (scan_line_ok line line_num v Hv) as [Hout Hend].
  destruct (scan_line skip body line line_num v) as [out o].
  simpl in Hout, Hend.
  assert (Hhead : Forall (fun r => exists k l,
              nth_error (line :: rest) k = Some l /\ P l (line_num + k) r) out).
  { eapply Forall_impl; [|exact Hout]. intros r Hr.
    exists 0, line. rewrite Nat.add_0_r. auto. }
  destruct o as [v'|e|]; simpl; auto.
  destruct (IH (line_num + 1) v' Hend) as [Hrest Hend'].
  destruct (scan_lines skip body rest (line_num + 1) v') as [out' o'].
  simpl in *. split; [|assumption].
  apply Forall_app; split; [assumption|].
  eapply Forall_impl; [|exact Hrest]. intros r (k & l & Hk & Hr).
  exists (S k), l. split; [assumption|].
  replace (line_num + S k) with (line_num + 1 + k) by lia. assumption.
Qed.

(** When [P] fixes the line number of a tuple, the run yields its tuples
    by non-decreasing line number. *)
Hypothesis P_lineno : forall line line_num r, P line line_num r -> lineno r = line_num.

Lemma scan_lines_sorted (lines : list string) :
  forall line_num v,
    Inv v ->
    StronglySorted le (map lineno (fst (scan_lines skip body lines line_num v))) /\
    Forall (fun r => line_num <= lineno r)
           (fst (scan_lines skip body lines line_num v)).
Proof.
  induction lines as [|line rest IH]; intros line_num v Hv; simpl.
  - split; constructor.
  - destruct (scan_line_ok line line_num v Hv) as [Hout Hend].
    destruct (scan_line skip body line line_num v) as [out o].
    simpl in Hout, Hend.
    assert (Heq : Forall (fun r => lineno r = line_num) out).
    { eapply Forall_impl; [|exact Hout]. intros r Hr. eapply P_lineno; eauto. }
    assert (Hsorted : StronglySorted le (map lineno out)).
    { clear -Heq. induction Heq as [|r out Hr Hall IH]; simpl; constructor; auto.
      apply Forall_forall. intros n Hn. apply in_map_iff in Hn.
      destruct Hn as (r' & <- & Hr').
      rewrite Forall_forall in Hall. rewrite (Hall r' Hr'). lia. }
    assert (Hlow : Forall (fun r => line_num <= lineno r) out).
    { eapply Forall_impl; [|exact Heq]. simpl. intros; lia. }
    destruct o as [v'|e|]; simpl; auto.
    destruct (IH (line_num + 1) v' Hend) as [Hs Hl].
    destruct (scan_lines skip body rest (line_num + 1) v') as [out' o'].
    simpl in *. split.
    + rewrite map_app. apply StronglySorted_le_app; auto.
      intros x y Hx Hy. apply in_map_iff in Hx, Hy.
      destruct Hx as (rx & <- & Hx). destruct Hy as (ry & <- & Hy).
      rewrite Forall_forall in Heq, Hl.
      rewrite (Heq rx Hx). specialize (Hl ry Hy). simpl in Hl. lia.
    + apply Forall_app; split; [assumption|].
      eapply Forall_impl; [|exact Hl]. simpl. intros; lia.
Qed.
End SkeletonFacts.

(** * Where a tuple is placed *)


Lemma corrected_index_in_line (tw : Z) (line : string) (base stop : nat) :
  (1 <= tw)%Z -> base <= length line ->
  (0 <= Z.of_nat base + Z.of_nat (count tab line 0 stop) * (tw - 1)
     <= expanded_length tw line)%Z.
Proof.
  intros Htw Hbase. unfold expanded_length.
  pose proof (count_le_occurrences tab line stop). nia.
Qed.

Lemma raw_index_in_line (tw : Z) (line : string) (index : nat) :
  (1 <= tw)%Z -> index <= length line ->
  (0 <= Z.of_nat index <= expanded_length tw line)%Z.
Proof.
  intros Htw Hi. unfold expanded_length. nia.
Qed.

Lemma slice_eqb_fits (line t : string) (index : nat) :
  (slice line index (index + length t) =? t)%string = true ->
  t <> "" ->
  index + length t <= length line.
Proof.
  intros H Hne. apply String.eqb_eq in H.
  destruct (slice_fits _ _ _ H); [destruct t; simpl in *; congruence|assumption].
Qed.

Ltac slice_fits_in H :=
  match type of H with
  | (slice ?l ?i _ =? ?t)%string = true =>
      apply (slice_eqb_fits l t i) in H; [simpl length in H|discriminate]
  end.

Ltac split_body H :=
  repeat match type of H with
         | context [if ?c then _ else _] => destruct c eqn:?
         | context [match ?x with _ => _ end] => destruct x eqn:?
         end.

Ltac yields_placed :=
  first [ apply Forall_nil
        | apply Forall_cons;
          [ split; [reflexivity|];
            simpl; intros Htw;
            solve [ apply corrected_index_in_line; auto; lia
                  | apply raw_index_in_line; auto; lia ]
          | apply Forall_nil ] ].

Lemma getitem_in_loop (line : string) (index : nat) :
  index < length line - 1 ->
  exists c, getitem line (Z.of_nat index) = Some c.
Proof.
  intros Hi. rewrite getitem_nat. apply get_in_range. lia.
Qed.

Lemma getitem_before_in_loop (line : string) (index : nat) :
  index < length line - 1 ->
  exists p, getitem line (Z.of_nat index - 1) = Some p.
Proof.
  intros Hi. destruct index as [|i].
  - unfold getitem. simpl.
    destruct (Z.leb_spec (- Z.of_nat (length line)) (-1)); [|lia].
    apply get_in_range. lia.
  - replace (Z.of_nat (S i) - 1)%Z with (Z.of_nat i) by lia.
    rewrite getitem_nat. apply get_in_range. lia.
Qed.


Module CStyleFacts.
Import CStyle.


Lemma c_body_placed (tw : Z) :
  body_ok (body tw) quoted (placed tw) nothing_raised.
Proof.
  intros line line_num v index out ctl Hv Hi Hb. unfold body in Hb.
  destruct (getitem_in_loop line index Hi) as [c Hc].
  destruct (getitem_before_in_loop line index Hi) as [p Hp].
  rewrite Hc in Hb.
  destruct (state v =? 0) eqn:Es0;
    [|destruct (state v =? 1) eqn:Es1; [|destruct (state v =? 2) eqn:Es2]].
  - destruct (slice line index (index + 2) =? "//")%string eqn:E1;
      [|destruct (slice line index (index + 2) =? "/*")%string eqn:E2].
    + injection Hb as <- <-. split; [yields_placed|exact Hv].
    + destruct (find "*/" line (index + 2)) as [pos|] eqn:Ef;
        injection Hb as <- <-; (split; [yields_placed|]).
      * apply find_ge in Ef. split; [discriminate|lia].
      * discriminate.
    + destruct (Ascii.eqb c dquote); [|destruct (Ascii.eqb c squote)];
        injection Hb as <- <-; (split; [yields_placed|]);
        (split; [|lia]); unfold quoted; simpl; auto.
  - apply Nat.eqb_eq in Es1. destruct (Hv Es1) as [Hq|Hq]; rewrite Hq in Hb;
      rewrite Hp in Hb;
      match type of Hb with
      | context [if ?a then _ else _] => destruct a
      end;
      try destruct (negb (Ascii.eqb p backslash));
      injection Hb as <- <-; (split; [yields_placed|]);
      (split; [|lia]); auto; discriminate.
  - destruct (find "*/" line index) as [pos|] eqn:Ef;
      injection Hb as <- <-; (split; [yields_placed|]).
    + apply find_ge in Ef. split; [discriminate|lia].
    + exact Hv.
  - injection Hb as <- <-. split; [yields_placed|]. split; [exact Hv|lia].
Qed.

Lemma init_quoted : quoted init.
Proof. discriminate. Qed.
End CStyleFacts.

Module XmlStyleFacts.
Import XmlStyle.

Lemma xml_body_placed (tw : Z) :
  body_ok (body tw) (fun _ => True) (placed tw) nothing_raised.
Proof.
  intros line line_num v index out ctl _ Hi Hb. unfold body in Hb.
  split_body Hb; injection Hb as <- <-;
    repeat match goal with
           | H : find _ _ _ = Some _ |- _ => apply find_ge in H
           | H : (slice _ _ _ =? _)%string = true |- _ => slice_fits_in H
           end;
    (split; [yields_placed|try exact I; try (split; [exact I|lia])]).
Qed.
End XmlStyleFacts.

Module PyStyleFacts.
Import PyStyle.


Lemma first_if_yielded_at (tw : Z) (line : string) (line_num : nat)
      (v v1 : vars) (index : nat) (c : ascii) (out1 : list comment) :
  tidy v -> state v = 0 -> index < length line - 1 ->
  getitem line (Z.of_nat index) = Some c ->
  first_if tw line line_num v index c = (out1, v1) ->
  Forall (yielded_at tw line line_num) out1 /\
  state v1 = 0 /\
  (comment_block v1 = Some true ->
   (slice line index (index + 3) = triple_squote \/
    slice line index (index + 3) = triple_dquote) /\
   block_start v1 <> None).
Proof.
  intros [Hv _] Hs Hi Hg E1. unfold first_if in E1.
  destruct (Ascii.eqb c hash) eqn:Eh.
  - apply Ascii.eqb_eq in Eh; subst c. injection E1 as <- <-. split.
    + apply Forall_cons; [|apply Forall_nil].
      exists index. split; [assumption|]. left. split; auto.
    + simpl. split; [reflexivity|]. intros; contradiction.
  - destruct (slice line index (index + 3) =? triple_squote)%string eqn:Ea.
    + injection E1 as <- <-. split; [apply Forall_nil|].
      simpl. split; [assumption|]. intros _. split; [|discriminate].
      left. now apply String.eqb_eq.
    + destruct (slice line index (index + 3) =? triple_dquote)%string eqn:Ed.
      * injection E1 as <- <-. split; [apply Forall_nil|].
        simpl. split; [assumption|]. intros _. split; [|discriminate].
        right. now apply String.eqb_eq.
      * injection E1 as <- <-. split; [apply Forall_nil|].
        split; [assumption|]. intros; contradiction.
Qed.

Lemma py_body_yielded_at (tw : Z) :
  body_ok (body tw) tidy (yielded_at tw) unbound_flag.
Proof.
  intros line line_num v index out ctl Hv Hi Hb. unfold body in Hb.
  destruct (getitem_in_loop line index Hi) as [c Hc]. rewrite Hc in Hb.
  destruct (state v =? 0) eqn:Es; [|destruct (state v =? 1) eqn:Es1].
  - apply Nat.eqb_eq in Es.
    destruct (first_if tw line line_num v index c) as [out1 v1] eqn:E1.
    destruct (second_if tw line line_num v1 index) as [out2 ctl2] eqn:E2.
    injection Hb as <- <-.
    destruct (first_if_yielded_at _ _ _ _ _ _ _ _ Hv Es Hi Hc E1)
      as (Ho1 & Hs1 & Htr).
    unfold second_if in E2. unfold tidy.
    destruct (comment_block v1) as [[|]|] eqn:Ec.
    + destruct (Htr eq_refl) as [Hsl Hbs].
      destruct (block_start v1) as [delim|] eqn:Eb; [|congruence].
      destruct (find delim line (index + 3)) as [pos|] eqn:Ef;
        injection E2 as <- <-.
      * split.
        -- apply Forall_app; split; [assumption|].
           apply Forall_cons; [|apply Forall_nil].
           exists index. split; [assumption|]. right; left.
           unfold triple_at; simpl. eauto 8.
        -- simpl. split; [split; discriminate|apply find_ge in Ef; lia].
      * split.
        -- apply Forall_app; split; [assumption|].
           apply Forall_cons; [|apply Forall_nil].
           exists index. split; [assumption|]. right; left.
           unfold triple_at; simpl. eauto 8.
        -- simpl. split; [discriminate|]. intros _. congruence.
    + injection E2 as <- <-. split; [now rewrite app_nil_r|].
      split; [|lia]. split; [congruence|]. intros; congruence.
    + injection E2 as <- <-. split; [now rewrite app_nil_r|reflexivity].
  - apply Nat.eqb_eq in Es1. destruct Hv as [Hcb Hbs].
    destruct (block_start v) as [delim|] eqn:Eb;
      [|exfalso; now apply Hbs].
    destruct (find delim line index) as [pos|] eqn:Ef; injection Hb as <- <-.
    + split.
      * apply Forall_cons; [|apply Forall_nil].
        exists index. split; [assumption|]. right; right.
        unfold continued_at; simpl. eauto 8.
      * simpl. split; [|apply find_ge in Ef; lia].
        split; [assumption|discriminate].
    + split.
      * apply Forall_cons; [|apply Forall_nil].
        exists index. split; [assumption|]. right; right.
        unfold continued_at; simpl. eauto 8.
      * split; [assumption|]. intros _. congruence.
  - injection Hb as <- <-. split; [apply Forall_nil|]. split; [exact Hv|lia].
Qed.

Lemma init_tidy : tidy init.
Proof. split; discriminate. Qed.

Lemma yielded_at_placed (tw : Z) (line : string) (line_num : nat)
      (r : comment) :
  yielded_at tw line line_num r -> placed tw line line_num r.
Proof.
  intros (index & Hi & [[_ ->]|[(Hsl & _ & Hl & Hc)|(_ & Hl & Hc)]]).
  - split; [reflexivity|]. simpl. intros Htw.
    apply corrected_index_in_line; auto; lia.
  - split; [assumption|]. rewrite Hc. intros Htw.
    apply corrected_index_in_line; auto.
    destruct Hsl as [Hsl|Hsl];
      [destruct (slice_fits line triple_squote index Hsl) as [H0|H0]
      |destruct (slice_fits line triple_dquote index Hsl) as [H0|H0]];
      solve [discriminate H0|exact H0].
  - split; [assumption|]. rewrite Hc. intros Htw.
    apply raw_index_in_line; auto; lia.
Qed.
End PyStyleFacts.

(** Weakening of what the body is known to yield. *)
Lemma body_ok_weaken {V : Type}
      (body : string -> nat -> V -> nat -> list comment * control V)
      (Inv : V -> Prop) (P Q : string -> nat -> comment -> Prop)
      (Allowed : exn -> Prop) :
  (forall line line_num r, P line line_num r -> Q line line_num r) ->
  body_ok body Inv P Allowed -> body_ok body Inv Q Allowed.
Proof.
  intros HPQ Hb line line_num v index out ctl Hv Hi E.
  destruct (Hb _ _ _ _ _ _ Hv Hi E) as [Ho Hc]. split; [|assumption].
  eapply Forall_impl; [|exact Ho]. intros r. apply HPQ.
Qed.

(** * The generators end *)

(** [c_style] and [xml_style] run every loop to its end and raise nothing;
    [py_style] runs every loop to its end too, and the one exception it can
    raise is the read of its unbound flag. *)
Lemma c_style_returns (tw : Z) (lines : list string) :
  exists v, ending (c_style tw lines) = Done v.
Proof.
  destruct (scan_lines_ok CStyle.skip _ _ _ _ (CStyleFacts.c_body_placed tw)
              lines 1 CStyle.init CStyleFacts.init_quoted) as [_ H].
  unfold ending, c_style, CStyle.run.
  destruct (snd (scan_lines CStyle.skip (CStyle.body tw) lines 1 CStyle.init));
    simpl in H; [eauto|contradiction|contradiction].
Qed.

Lemma xml_style_returns (tw : Z) (lines : list string) :
  exists v, ending (xml_style tw lines) = Done v.
Proof.
  destruct (scan_lines_ok XmlStyle.skip _ _ _ _ (XmlStyleFacts.xml_body_placed tw)
              lines 1 XmlStyle.init I) as [_ H].
  unfold ending, xml_style, XmlStyle.run.
  destruct (snd (scan_lines XmlStyle.skip (XmlStyle.body tw) lines 1 XmlStyle.init));
    simpl in H; [eauto|contradiction|contradiction].
Qed.

Lemma py_style_returns_or_raises (tw : Z) (lines : list string) :
  (exists v, ending (py_style tw lines) = Done v) \/
  ending (py_style tw lines) = Raised (UnboundLocalError "comment_block").
Proof.
  destruct (scan_lines_ok PyStyle.skip _ _ _ _ (PyStyleFacts.py_body_yielded_at tw)
              lines 1 PyStyle.init PyStyleFacts.init_tidy) as [_ H].
  unfold ending, py_style, PyStyle.run.
  destruct (snd (scan_lines PyStyle.skip (PyStyle.body tw) lines 1 PyStyle.init));
    simpl in H; [eauto|right; now rewrite H|contradiction].
Qed.

(** * The statements of the specification *)


(** C1. The specification expects [py_style] to yield the one tuple with the
    text " note" for the line [x = 1  # note] and to end normally.  The
    generator instead raises UnboundLocalError in the first pass of its
    loop, when [if comment_block:] reads a local that nothing has assigned
    yet, and has yielded nothing by then; the same with a final newline.
    Started with [comment_block] bound to [False], the same loop yields the
    expected tuple and ends normally. *)
Theorem py_style_note_reads_unbound_flag (tw : Z) :
  py_style tw ["x = 1  # note"]
  = ([], Raised (UnboundLocalError "comment_block")) /\
  py_style tw [("x = 1  # note" ++ nl)%string]
  = ([], Raised (UnboundLocalError "comment_block")) /\
  scan_lines PyStyle.skip (PyStyle.body tw) ["x = 1  # note"] 1
             (PyStyle.clear_comment_block PyStyle.init)
  = ([Yield " note" 1 8],
     Done (PyStyle.clear_comment_block PyStyle.init)).
Proof. repeat split; vm_compute; reflexivity. Qed.

(** C3. The branch of [xml_style] that finds [-->] on the line of [<!--]
    yields the raw index: for a line that starts with a TAB the tuple
    carries 5, where the corrected index is 5 + 1 * (4 - 1) = 8, the value
    its sibling branch (no [-->] on the line) yields for the same prefix. *)
Theorem xml_style_same_line_index_uncorrected :
  yielded (xml_style SPACES_FOR_TAB_default [tabs 1 "<!-- hi -->"])
  = [Yield " hi -->" 1 5] /\
  (Z.of_nat 5
   + Z.of_nat (count tab (tabs 1 "<!-- hi -->") 0 5)
     * (SPACES_FOR_TAB_default - 1) = 8)%Z /\
  yielded (xml_style SPACES_FOR_TAB_default [tabs 1 "<!-- hi "])
  = [Yield " hi " 1 8].
Proof. repeat split; vm_compute; reflexivity. Qed.

(** C4, as stated: the index of a tuple of [c_style] can exceed the raw
    length of its line, here 10 on a line of 5 characters. *)
Lemma column_exceeds_raw_length :
  ~ (forall (lines : list string) (r : comment) (line : string),
        In r (yielded (c_style SPACES_FOR_TAB_default lines)) ->
        nth_error lines (lineno r - 1) = Some line ->
        (0 <= column r <= Z.of_nat (length line))%Z).
Proof.
  intros H.
  specialize (H [tabs 2 ("//" ++ nl)%string] (Yield nl 1 10)
                (tabs 2 ("//" ++ nl)%string)).
  vm_compute in H.
  destruct (H (or_introl eq_refl) eq_refl) as [_ Hle]. apply Hle. reflexivity.
Qed.

(** C4, amended: with a TAB of at least one space, every tuple any of the
    three generators yields carries the number of a line of the input and
    an index between 0 and the length of that line with its TABs expanded. *)
Theorem column_within_expanded_line (tw : Z) (lines : list string) (r : comment) :
  (1 <= tw)%Z ->
  In r (yielded (c_style tw lines)) \/
  In r (yielded (py_style tw lines)) \/
  In r (yielded (xml_style tw lines)) ->
  exists line,
    nth_error lines (lineno r - 1) = Some line /\
    (0 <= column r <= expanded_length tw line)%Z.
Proof.
  intros Htw Hin.
  assert (H : exists k line, nth_error lines k = Some line /\
                             placed tw line (1 + k) r).
  { destruct Hin as [Hin|[Hin|Hin]].
    - destruct (scan_lines_ok CStyle.skip _ _ _ _ (CStyleFacts.c_body_placed tw)
                  lines 1 CStyle.init CStyleFacts.init_quoted) as [H _].
      rewrite Forall_forall in H. exact (H r Hin).
    - destruct (scan_lines_ok PyStyle.skip _ _ _ _
                  (body_ok_weaken _ _ _ _ _ (PyStyleFacts.yielded_at_placed tw)
                     (PyStyleFacts.py_body_yielded_at tw))
                  lines 1 PyStyle.init PyStyleFacts.init_tidy) as [H _].
      rewrite Forall_forall in H. exact (H r Hin).
    - destruct (scan_lines_ok XmlStyle.skip _ _ _ _ (XmlStyleFacts.xml_body_placed tw)
                  lines 1 XmlStyle.init I) as [H _].
      rewrite Forall_forall in H. exact (H r Hin). }
  destruct H as (k & line & Hk & Hl & Hc).
  exists line. rewrite Hl. replace (1 + k - 1) with k by lia. auto.
Qed.

Lemma column_within_expanded_line_witness :
  (1 <= 4)%Z /\
  In (Yield nl 1 10) (yielded (c_style 4 [tabs 2 ("//" ++ nl)%string])) /\
  exists line,
    nth_error [tabs 2 ("//" ++ nl)%string] (1 - 1) = Some line /\
    (0 <= 10 <= expanded_length 4 line)%Z.
Proof.
  split; [lia|]. split; [vm_compute; auto|].
  apply (column_within_expanded_line 4 [tabs 2 ("//" ++ nl)%string]
           (Yield nl 1 10)); [lia|left; vm_compute; auto].
Defined.

(** C5. Each of the three generators yields its tuples by non-decreasing
    line number: every tuple's number is at most that of every later one. *)
Theorem line_numbers_nondecreasing (tw : Z) (lines : list string) :
  StronglySorted le (map lineno (yielded (c_style tw lines))) /\
  StronglySorted le (map lineno (yielded (py_style tw lines))) /\
  StronglySorted le (map lineno (yielded (xml_style tw lines))).
Proof.
  assert (Hl : forall line line_num r, placed tw line line_num r ->
                                       lineno r = line_num)
    by (intros line line_num r [H _]; exact H).
  repeat split.
  - apply (scan_lines_sorted CStyle.skip _ _ _ _ (CStyleFacts.c_body_placed tw) Hl
             lines 1 CStyle.init CStyleFacts.init_quoted).
  - apply (scan_lines_sorted PyStyle.skip _ _ _ _
             (body_ok_weaken _ _ _ _ _ (PyStyleFacts.yielded_at_placed tw)
                (PyStyleFacts.py_body_yielded_at tw)) Hl
             lines 1 PyStyle.init PyStyleFacts.init_tidy).
  - apply (scan_lines_sorted XmlStyle.skip _ _ _ _ (XmlStyleFacts.xml_body_placed tw) Hl
             lines 1 XmlStyle.init I).
Qed.

(** C7. For the line [printf("// not a comment");] the generator [c_style]
    yields nothing and ends in state 0: the quote before [//] moves it to
    state 1, and in state 1 the body of the loop yields nothing, whatever
    the line, the index and the remembered quote. *)
Theorem c_style_printf_string_yields_nothing (tw : Z) :
  c_style tw [("printf(" ++ quote ++ "// not a comment" ++ quote ++ ");")%string]
  = ([], Done {| CStyle.state := 0; CStyle.string_start := Some dquote |}) /\
  (forall (line : string) (line_num index : nat) (q : option ascii),
      fst (CStyle.body tw line line_num
             {| CStyle.state := 1; CStyle.string_start := q |} index) = []).
Proof.
  split; [vm_compute; reflexivity|].
  intros line line_num index q. unfold CStyle.body. simpl.
  destruct (getitem line (Z.of_nat index)); [|reflexivity].
  destruct q; [|reflexivity].
  destruct (Ascii.eqb a a0); [|reflexivity].
  destruct (getitem line (Z.of_nat index - 1)); [|reflexivity].
  destruct (negb (Ascii.eqb a1 backslash)); reflexivity.
Qed.

(** C8. For the line [<!-- hi -->] the generator [xml_style] yields one
    tuple, whose text [ hi -->] runs to the end of the line although [-->]
    is found at 8; the pass that yields it sets the index to 8 + 2 and the
    state to 0, in which the generator ends.  With a final newline the text
    still starts with [ hi -->]. *)
Theorem xml_style_same_line_text_not_truncated (tw : Z) :
  xml_style tw ["<!-- hi -->"]
  = ([Yield " hi -->" 1 4], Done {| XmlStyle.state := 0 |}) /\
  find "-->" "<!-- hi -->" (0 + 3) = Some 8 /\
  XmlStyle.body tw "<!-- hi -->" 1 XmlStyle.init 0
  = ([Yield " hi -->" 1 4], Next {| XmlStyle.state := 0 |} (8 + 2)) /\
  xml_style tw [("<!-- hi -->" ++ nl)%string]
  = ([Yield (" hi -->" ++ nl)%string 1 4], Done {| XmlStyle.state := 0 |}) /\
  prefix " hi -->" (" hi -->" ++ nl)%string = true.
Proof. repeat split; vm_compute; reflexivity. Qed.

(** ** The dispatcher *)


Lemma last_char_drop (n : nat) (s : string) :
  n < length s -> last_char (drop n s) = last_char s.
Proof.
  revert s; induction n as [|n IH]; intros [|c s] H; simpl in *; try lia; auto.
  rewrite IH by lia. destruct s; [simpl in H; lia|reflexivity].
Qed.

Lemma endswith_last_char (s suffix : string) :
  endswith s suffix = true -> suffix <> "" ->
  last_char s = last_char suffix.
Proof.
  unfold endswith. intros H Hne. apply andb_true_iff in H. destruct H as [Hl He].
  apply Nat.leb_le in Hl. apply String.eqb_eq in He.
  rewrite <- He. symmetry. apply last_char_drop.
  destruct suffix; [congruence|simpl in *; lia].
Qed.

Lemma endswith_any_last_char (s : string) (suffixes : list string) :
  endswith_any s suffixes = true ->
  Forall (fun suffix => suffix <> "") suffixes ->
  exists suffix, In suffix suffixes /\ last_char s = last_char suffix.
Proof.
  unfold endswith_any. intros H Hne. apply existsb_exists in H.
  destruct H as (suffix & Hin & He). exists suffix. split; [assumption|].
  apply endswith_last_char; [assumption|].
  rewrite Forall_forall in Hne. now apply Hne.
Qed.

(** C9. [check_file] decides on the lower-cased path alone, so a path and
    the same path in upper case select the same generator; it selects by
    suffix as the table says, and for any other suffix, as for [a.rs], it
    returns [None]; being a total function it has no other result. *)
Theorem check_file_by_suffix_ignoring_case (src_file : string) :
  check_file (upper src_file) = check_file src_file /\
  (endswith (lower src_file) ".py" = true ->
   check_file src_file = Some py_style_fn) /\
  (endswith_any (lower src_file) [".cpp"; ".c"; ".h"] = true ->
   check_file src_file = Some c_style_fn) /\
  (endswith_any (lower src_file) [".xml"; ".html"; ".htm"] = true ->
   check_file src_file = Some xml_style_fn) /\
  (endswith_any (lower src_file)
                [".py"; ".cpp"; ".c"; ".h"; ".xml"; ".html"; ".htm"] = false ->
   check_file src_file = None) /\
  check_file "a.PY" = check_file "a.py" /\
  check_file "a.rs" = None.
Proof.
  unfold check_file. rewrite lower_upper.
  split; [reflexivity|]. split; [intros ->; reflexivity|].
  split; [|split; [|split; [|split; reflexivity]]].
  - intros H. rewrite H.
    destruct (endswith (lower src_file) ".py") eqn:Ep; [|reflexivity].
    apply endswith_last_char in Ep; [|discriminate].
    apply endswith_any_last_char in H; [|repeat constructor; discriminate].
    destruct H as (suffix & Hin & Hl). rewrite Ep in Hl.
    simpl in Hin. decompose [or] Hin; subst; try discriminate; contradiction.
  - intros H. rewrite H.
    destruct (endswith (lower src_file) ".py") eqn:Ep.
    { apply endswith_last_char in Ep; [|discriminate].
      apply endswith_any_last_char in H; [|repeat constructor; discriminate].
      destruct H as (suffix & Hin & Hl). rewrite Ep in Hl.
      simpl in Hin. decompose [or] Hin; subst; try discriminate; contradiction. }
    destruct (endswith_any (lower src_file) [".cpp"; ".c"; ".h"]) eqn:Ec;
      [|reflexivity].
    apply endswith_any_last_char in Ec; [|repeat constructor; discriminate].
    apply endswith_any_last_char in H; [|repeat constructor; discriminate].
    destruct Ec as (s1 & Hin1 & Hl1). destruct H as (s2 & Hin2 & Hl2).
    rewrite Hl1 in Hl2. simpl in Hin1, Hin2.
    decompose [or] Hin1; decompose [or] Hin2; subst;
      try discriminate; contradiction.
  - unfold endswith_any. simpl. intros H.
    repeat (apply orb_false_iff in H; destruct H as [? H]).
    repeat match goal with E : endswith _ _ = false |- _ => rewrite E; clear E end.
    reflexivity.
Qed.

Lemma check_file_by_suffix_ignoring_case_witness :
  endswith_any (lower "Main.CPP") [".cpp"; ".c"; ".h"] = true /\
  check_file "Main.CPP" = Some c_style_fn /\
  endswith_any (lower "a.rs")
               [".py"; ".cpp"; ".c"; ".h"; ".xml"; ".html"; ".htm"] = false /\
  check_file "a.rs" = None.
Proof.
  split; [reflexivity|]. split.
  - exact (proj1 (proj2 (proj2 (check_file_by_suffix_ignoring_case "Main.CPP")))
             eq_refl).
  - split; [reflexivity|].
    exact (proj1 (proj2 (proj2 (proj2 (proj2
             (check_file_by_suffix_ignoring_case "a.rs"))))) eq_refl).
Defined.

(** ** The test that skips a line of [c_style] *)

Lemma same_mode_refl (v : CStyle.vars) : same_mode v v.
Proof. split; auto. Qed.

Lemma same_mode_trans (a b c : CStyle.vars) :
  same_mode a b -> same_mode b c -> same_mode a c.
Proof.
  intros [H1 H2] [H3 H4]. split; [congruence|].
  intros Ha. rewrite H2 by assumption. apply H4. congruence.
Qed.

(** The body reads [string_start] in state 1 only: from variables in the
    same mode it yields the same tuples and ends alike. *)
Lemma body_alike (tw : Z) (line : string) (line_num : nat)
      (v1 v2 : CStyle.vars) (index : nat) :
  same_mode v1 v2 ->
  exists out c1 c2,
    CStyle.body tw line line_num v1 index = (out, c1) /\
    CStyle.body tw line line_num v2 index = (out, c2) /\
    control_alike c1 c2.
Proof.
  destruct v1 as [s q1], v2 as [s2 q2]. intros [Hs Hq]. simpl in Hs, Hq.
  subst s2. destruct (Nat.eq_dec s 1) as [->|Hne].
  - rewrite (Hq eq_refl).
    destruct (CStyle.body tw line line_num
                {| CStyle.state := 1; CStyle.string_start := q2 |} index)
      as [out c] eqn:E.
    exists out, c, c. repeat split.
    destruct c; simpl; auto using same_mode_refl.
  - assert (E1 : (s =? 1) = false) by (now apply Nat.eqb_neq).
    unfold CStyle.body, CStyle.set_state. simpl. rewrite E1.
    repeat match goal with
           | |- context [if ?c then _ else _] => destruct c
           | |- context [match ?x with _ => _ end] => destruct x
           end;
      do 3 eexists; (split; [reflexivity|]); (split; [reflexivity|]);
      simpl; unfold same_mode; simpl;
      repeat split; auto; intros; try discriminate; try contradiction.
Qed.

Lemma while_eq {V : Type}
      (body : string -> nat -> V -> nat -> list comment * control V)
      (fuel : nat) (line : string) (line_num : nat) (v : V) (index : nat) :
  while body fuel line line_num v index
  = if index <? length line - 1 then
      match fuel with
      | 0 => ([], OutOfFuel)
      | S fuel' =>
          match body line line_num v index with
          | (out, Next v' index') =>
              let (out', o) := while body fuel' line line_num v' (index' + 1) in
              (out ++ out', o)
          | (out, Break v') => (out, Done v')
          | (out, Raise e) => (out, Raised e)
          end
      end
    else ([], Done v).
Proof. destruct fuel; reflexivity. Qed.

Lemma while_alike (tw : Z) (line : string) (line_num : nat) (fuel : nat) :
  forall v1 v2 index,
    same_mode v1 v2 ->
    exists out o1 o2,
      while (CStyle.body tw) fuel line line_num v1 index = (out, o1) /\
      while (CStyle.body tw) fuel line line_num v2 index = (out, o2) /\
      outcome_alike o1 o2.
Proof.
  induction fuel as [|fuel IH]; intros v1 v2 index Hm;
    rewrite (while_eq _ _ line line_num v1), (while_eq _ _ line line_num v2);
    destruct (index <? length line - 1);
    try solve [do 3 eexists; split;
               [reflexivity
               |split; [reflexivity|simpl; first [exact Hm|exact I]]]].
  destruct (body_alike tw line line_num v1 v2 index Hm)
    as (out & c1 & c2 & E1 & E2 & Hc).
  rewrite E1, E2.
  destruct c1 as [a i|a|e1], c2 as [b j|b|e2]; simpl in Hc;
    try contradiction.
  - destruct Hc as [Hab <-].
    destruct (IH a b (i + 1) Hab) as (out' & o1 & o2 & F1 & F2 & Ho).
    rewrite F1, F2. do 3 eexists; split; [reflexivity|split; [reflexivity|exact Ho]].
  - do 3 eexists; split; [reflexivity|split; [reflexivity|exact Hc]].
  - subst e2. do 3 eexists; split; [reflexivity|split; reflexivity].
Qed.

(** Outside a block comment, a line without [//] and [/*] yields nothing
    when the loop scans it. *)
Lemma body_silent (tw : Z) (line : string) (line_num : nat)
      (v : CStyle.vars) (index : nat) :
  contains "//" line = false -> contains "/*" line = false ->
  CStyle.state v <> 2 ->
  exists ctl,
    CStyle.body tw line line_num v index = ([], ctl) /\
    match ctl with
    | Next v' _ => CStyle.state v' <> 2
    | Break _ => False
    | Raise _ => True
    end.
Proof.
  intros H1 H2 Hs.
  pose proof (absent_slice "//" line index ltac:(discriminate) H1) as A1.
  pose proof (absent_slice "/*" line index ltac:(discriminate) H2) as A2.
  simpl length in A1, A2. apply Nat.eqb_neq in Hs.
  unfold CStyle.body. rewrite A1, A2, Hs.
  destruct (CStyle.state v =? 0) eqn:E0;
    [apply Nat.eqb_eq in E0
    |destruct (CStyle.state v =? 1) eqn:E1; [apply Nat.eqb_eq in E1|]];
    repeat match goal with
           | |- context [if ?c then _ else _] => destruct c
           | |- context [match ?x with _ => _ end] => destruct x
           end;
    eexists; (split; [reflexivity|]); simpl; try exact I;
    try rewrite E0; try rewrite E1; try discriminate.
  now apply Nat.eqb_neq.
Qed.

Lemma while_silent (tw : Z) (line : string) (line_num : nat) :
  contains "//" line = false -> contains "/*" line = false ->
  forall fuel v index,
    CStyle.state v <> 2 ->
    yielded (while (CStyle.body tw) fuel line line_num v index) = [].
Proof.
  intros H1 H2. induction fuel as [|fuel IH]; intros v index Hs;
    rewrite while_eq; destruct (index <? length line - 1);
    try reflexivity.
  destruct (body_silent tw line line_num v index H1 H2 Hs) as (ctl & E & Hc).
  rewrite E. destruct ctl as [v' i|v'|e]; try reflexivity; try contradiction.
  specialize (IH v' (i + 1) Hc).
  destruct (while (CStyle.body tw) fuel line line_num v' (i + 1)). exact IH.
Qed.

Lemma skip_alike (tw : Z) (lines : list string) :
  forall line_num v1 v2,
    same_mode v1 v2 ->
    skipped_lines_keep_mode tw lines line_num v1 ->
    exists out o1 o2,
      scan_lines CStyle.skip (CStyle.body tw) lines line_num v1 = (out, o1) /\
      scan_lines (fun _ _ => false) (CStyle.body tw) lines line_num v2
      = (out, o2) /\
      outcome_alike o1 o2.
Proof.
  induction lines as [|line rest IH]; intros line_num v1 v2 Hm Hk.
  - simpl. do 3 eexists; split; [reflexivity|split; [reflexivity|exact Hm]].
  - destruct Hk as [Hskip Hrest]. unfold ending in Hskip, Hrest.
    destruct (while_alike tw line line_num (length line) v1 v2 0 Hm)
      as (out & o1 & o2 & E1 & E2 & Ho).
    simpl scan_lines. unfold scan_line in *.
    destruct (CStyle.skip line v1) eqn:Es.
    + destruct (Hskip eq_refl) as (v1' & Hend & Hm1).
      rewrite E1 in Hend. simpl in Hend. subst o1.
      destruct o2 as [v2'| |]; simpl in Ho; try contradiction.
      assert (Hout : out = []).
      { unfold CStyle.skip in Es. simpl forallb in Es.
        apply andb_true_iff in Es. destruct Es as [Em Eb].
        repeat (apply andb_true_iff in Em; destruct Em as [? Em]).
        repeat match goal with
               | H : negb _ = true |- _ => apply negb_true_iff in H
               end.
        assert (Hs : CStyle.state v1 <> 2) by (now apply Nat.eqb_neq).
        pose proof (while_silent tw line line_num ltac:(assumption)
                      ltac:(assumption) (length line) v1 0 Hs) as Hy.
        rewrite E1 in Hy. exact Hy. }
      subst out. rewrite E2. simpl in Hrest.
      destruct (IH (line_num + 1) v1 v2'
                  (same_mode_trans _ _ _ Hm1 Ho) Hrest)
        as (out' & p1 & p2 & F1 & F2 & Hp).
      rewrite F1, F2. do 3 eexists; split; [reflexivity|split; [reflexivity|exact Hp]].
    + rewrite E1, E2. rewrite E1 in Hrest. simpl in Hrest.
      destruct o1 as [a| |], o2 as [b| |]; simpl in Ho; try contradiction.
      * destruct (IH (line_num + 1) a b Ho Hrest)
          as (out' & p1 & p2 & F1 & F2 & Hp).
        rewrite F1, F2. do 3 eexists; split; [reflexivity|split; [reflexivity|exact Hp]].
      * subst. do 3 eexists; split; [reflexivity|split; reflexivity].
      * do 3 eexists; split; [reflexivity|split; [reflexivity|exact I]].
Qed.
(** C2, as stated: the test is not transparent.  The quote of [it's] opens a
    string only when the line is scanned, so without the test the comment of
    the next line is taken for the inside of a string and is lost. *)
Lemma c_style_skip_changes_result :
  CStyle.run SPACES_FOR_TAB_default
             [("it's" ++ nl)%string; ("// c" ++ nl)%string]
  = ([Yield (" c" ++ nl)%string 2 2],
     Done {| CStyle.state := 0; CStyle.string_start := None |}) /\
  CStyle.run_noskip SPACES_FOR_TAB_default
                    [("it's" ++ nl)%string; ("// c" ++ nl)%string]
  = ([], Done {| CStyle.state := 1; CStyle.string_start := Some squote |}) /\
  ~ (forall lines : list string,
        CStyle.run SPACES_FOR_TAB_default lines
        = CStyle.run_noskip SPACES_FOR_TAB_default lines).
Proof.
  split; [vm_compute; reflexivity|]. split; [vm_compute; reflexivity|].
  intros H. specialize (H [("it's" ++ nl)%string; ("// c" ++ nl)%string]).
  vm_compute in H. discriminate H.
Qed.

(** C2, amended: on an input in which every line the test skips would,
    had the loop scanned it, have ended in the mode in which it is reached
    (outside a string: every quote opened on the line is closed on it;
    inside one: the line ends inside a string of the same quote), [c_style]
    with the test yields the same tuples as [c_style] with the test
    removed, and both end normally in the same state, with the same
    remembered quote when that state is inside a string. *)
Theorem c_style_skip_transparent_when_skipped_lines_keep_mode
        (tw : Z) (lines : list string) :
  skipped_lines_keep_mode tw lines 1 CStyle.init ->
  yielded (CStyle.run tw lines) = yielded (CStyle.run_noskip tw lines) /\
  exists v v',
    ending (CStyle.run tw lines) = Done v /\
    ending (CStyle.run_noskip tw lines) = Done v' /\
    same_mode v v'.
Proof.
  intros Hk.
  destruct (skip_alike tw lines 1 CStyle.init CStyle.init
              (same_mode_refl _) Hk) as (out & o1 & o2 & E1 & E2 & Ho).
  destruct (c_style_returns tw lines) as [v Hv].
  unfold yielded, ending, c_style, CStyle.run, CStyle.run_noskip in *.
  rewrite E1, E2. rewrite E1 in Hv. simpl in Hv. subst o1.
  destruct o2 as [v'| |]; simpl in Ho; try contradiction.
  split; [reflexivity|]. exists v, v'. simpl. auto.
Qed.

Lemma c_style_skip_transparent_when_skipped_lines_keep_mode_witness :
  skipped_lines_keep_mode
    4 [("x = " ++ quote ++ "a" ++ quote ++ ";" ++ nl)%string;
       ("// c" ++ nl)%string] 1 CStyle.init /\
  yielded (CStyle.run 4 [("x = " ++ quote ++ "a" ++ quote ++ ";" ++ nl)%string;
                         ("// c" ++ nl)%string])
  = [Yield (" c" ++ nl)%string 2 2] /\
  yielded (CStyle.run 4 [("x = " ++ quote ++ "a" ++ quote ++ ";" ++ nl)%string;
                         ("// c" ++ nl)%string])
  = yielded (CStyle.run_noskip
               4 [("x = " ++ quote ++ "a" ++ quote ++ ";" ++ nl)%string;
                  ("// c" ++ nl)%string]).
Proof.
  assert (H : skipped_lines_keep_mode
                4 [("x = " ++ quote ++ "a" ++ quote ++ ";" ++ nl)%string;
                   ("// c" ++ nl)%string] 1 CStyle.init).
  { cbn [skipped_lines_keep_mode]. split.
    - intros _.
      exists {| CStyle.state := 0; CStyle.string_start := Some dquote |}.
      split; [vm_compute; reflexivity|].
      split; [reflexivity|intros E; discriminate E].
    - vm_compute. split; [intros E; discriminate E|exact I]. }
  split; [exact H|]. split; [vm_compute; reflexivity|].
  exact (proj1 (c_style_skip_transparent_when_skipped_lines_keep_mode 4 _ H)).
Defined.

(** ** First-line emissions of [py_style] *)

Lemma yielded_at_lineno (tw : Z) (line : string) (line_num : nat) (r : comment) :
  PyStyle.yielded_at tw line line_num r -> lineno r = line_num.
Proof. intros H. apply PyStyleFacts.yielded_at_placed in H. apply H. Qed.

(** C6. In state 0 a pass of [py_style] at a [#] yields the tuple whose
    index is [index + 1] plus the correction for the TABs of
    [line[0:index+2]], and a pass at a triple quote yields one tuple whose
    index is [index + 3] plus the correction for the TABs of that same
    prefix [line[0:index+2]].  Every tuple the generator yields is of one
    of these two forms or the continuation of an open block.  The bound
    [index + 2] shows when a TAB follows the [#]: the index is 12, not 9. *)
Theorem py_style_first_line_tab_window (tw : Z) :
  (forall (line : string) (line_num index : nat) (v : PyStyle.vars),
      PyStyle.state v = 0 -> PyStyle.tidy v ->
      index < length line - 1 ->
      (getitem line (Z.of_nat index) = Some hash ->
       fst (PyStyle.body tw line line_num v index)
       = [Yield (slice_from line (index + 1)) line_num
                (Z.of_nat (index + 1)
                 + Z.of_nat (count tab line 0 (index + 2)) * (tw - 1))]) /\
      (getitem line (Z.of_nat index) <> Some hash ->
       slice line index (index + 3) = triple_squote \/
       slice line index (index + 3) = triple_dquote ->
       exists txt,
         fst (PyStyle.body tw line line_num v index)
         = [Yield txt line_num
                  (Z.of_nat (index + 3)
                   + Z.of_nat (count tab line 0 (index + 2)) * (tw - 1))])) /\
  (forall lines : list string,
      Forall (fun r => exists line,
                  nth_error lines (lineno r - 1) = Some line /\
                  PyStyle.yielded_at tw line (lineno r) r)
             (yielded (py_style tw lines))) /\
  yielded (py_style SPACES_FOR_TAB_default
                    [(triple_squote ++ "a" ++ triple_squote ++ " #"
                      ++ tabs 1 "x" ++ nl)%string])
  = [Yield "a" 1 3; Yield (tabs 1 "x" ++ nl)%string 1 12].
Proof.
  split; [|split; [|vm_compute; reflexivity]].
  - intros line line_num index v Hs [Hcb _] Hi.
    destruct (getitem_in_loop line index Hi) as [c Hc].
    unfold PyStyle.body. rewrite Hs, Hc. simpl. unfold PyStyle.first_if. split.
    + intros [= ->]. rewrite Ascii.eqb_refl. unfold PyStyle.second_if. simpl.
      destruct (PyStyle.comment_block v) as [[|]|]; [congruence| |]; reflexivity.
    + intros Hne Htr.
      assert (Eh : Ascii.eqb c hash = false)
        by (apply Ascii.eqb_neq; congruence).
      rewrite Eh.
      destruct Htr as [Htr|Htr]; rewrite Htr.
      * rewrite String.eqb_refl. unfold PyStyle.second_if. simpl.
        destruct (find triple_squote line (index + 3)); simpl; eauto.
      * replace (triple_dquote =? triple_squote)%string with false
          by reflexivity.
        rewrite String.eqb_refl. unfold PyStyle.second_if. simpl.
        destruct (find triple_dquote line (index + 3)); simpl; eauto.
  - intros lines.
    destruct (scan_lines_ok PyStyle.skip _ _ _ _ (PyStyleFacts.py_body_yielded_at tw)
                lines 1 PyStyle.init PyStyleFacts.init_tidy) as [H _].
    eapply Forall_impl; [|exact H]. intros r (k & line & Hk & Hr).
    exists line. rewrite (yielded_at_lineno _ _ _ _ Hr).
    replace (1 + k - 1) with k by lia. auto.
Qed.

Lemma py_style_first_line_tab_window_witness :
  PyStyle.state PyStyle.init = 0 /\
  PyStyle.tidy PyStyle.init /\
  0 < length (String hash (tabs 1 "x" ++ nl)) - 1 /\
  getitem (String hash (tabs 1 "x" ++ nl)) (Z.of_nat 0) = Some hash /\
  fst (PyStyle.body 4 (String hash (tabs 1 "x" ++ nl)) 1 PyStyle.init 0)
  = [Yield (slice_from (String hash (tabs 1 "x" ++ nl)) (0 + 1)) 1
           (Z.of_nat (0 + 1)
            + Z.of_nat (count tab (String hash (tabs 1 "x" ++ nl)) 0 (0 + 2))
              * (4 - 1))].
Proof.
  split; [reflexivity|]. split; [exact PyStyleFacts.init_tidy|].
  split; [simpl; lia|]. split; [reflexivity|].
  apply (proj1 (proj1 (py_style_first_line_tab_window 4)
                  (String hash (tabs 1 "x" ++ nl)) 1 0 PyStyle.init
                  eq_refl PyStyleFacts.init_tidy ltac:(simpl; lia))).
  reflexivity.
Defined.

(** ** The bound of the loop *)

Lemma length_append (s t : string) : length (s ++ t) = length s + length t.
Proof. induction s as [|c s IH]; simpl; auto. Qed.

Section HashAtEnd.
Variable tw : Z.
Variable p : string.
Variable line_num : nat.
Hypothesis no_hash : contains (String hash "") p = false.
Hypothesis no_triple :
  contains triple_squote (p ++ String hash "") = false /\
  contains triple_dquote (p ++ String hash "") = false.

(** On a line whose only delimiter is a [#] at its last index, a pass in
    state 0 yields nothing: it falls through or raises. *)
Lemma body_before_last_hash (v : PyStyle.vars) (index : nat) :
  PyStyle.state v = 0 -> PyStyle.comment_block v <> Some true ->
  index < length (p ++ String hash "") - 1 ->
  PyStyle.body tw (p ++ String hash "") line_num v index = ([], Next v index) \/
  exists e,
    PyStyle.body tw (p ++ String hash "") line_num v index = ([], Raise e).
Proof.
  intros Hs Hcb Hi. destruct no_triple as [Hq Hd].
  assert (Hip : index < length p)
    by (rewrite length_append in Hi; simpl in Hi; lia).
  destruct (get_in_range p index Hip) as [c Hc].
  assert (Hg : getitem (p ++ String hash "") (Z.of_nat index) = Some c)
    by (rewrite getitem_nat, <- append_correct1; assumption).
  assert (Eh : Ascii.eqb c hash = false).
  { apply Ascii.eqb_neq. intros ->. exact (absent_char _ _ _ no_hash Hc). }
  pose proof (absent_slice triple_squote _ index ltac:(discriminate) Hq) as A1.
  pose proof (absent_slice triple_dquote _ index ltac:(discriminate) Hd) as A2.
  simpl length in A1, A2.
  unfold PyStyle.body, PyStyle.first_if. rewrite Hs, Hg, Eh, A1, A2. simpl.
  unfold PyStyle.second_if.
  destruct (PyStyle.comment_block v) as [[|]|]; [congruence|auto|eauto].
Qed.

Lemma while_before_last_hash (v : PyStyle.vars) (fuel : nat) :
  PyStyle.state v = 0 -> PyStyle.comment_block v <> Some true ->
  forall index,
    yielded (while (PyStyle.body tw) fuel (p ++ String hash "") line_num v index)
    = [].
Proof.
  intros Hs Hcb. induction fuel as [|fuel IH]; intros index; simpl;
    destruct (Nat.ltb_spec index (length (p ++ String hash "") - 1))
      as [Hlt|Hge]; try reflexivity.
  destruct (body_before_last_hash v index Hs Hcb Hlt) as [E|[e E]]; rewrite E.
  - specialize (IH (index + 1)).
    destruct (while (PyStyle.body tw) fuel (p ++ String hash "") line_num v
                    (index + 1)) as [out o].
    exact IH.
  - reflexivity.
Qed.
End HashAtEnd.

(** C10. The loop of the three generators does nothing once the index has
    reached [len(line) - 1]: whatever the body, it yields nothing and keeps
    the variables, so no pass is made at the last index of a line.  In
    particular a last line that ends, without a newline, in a [#] and has
    no other [#] and no triple quote yields nothing in [py_style], neither
    when it is scanned in state 0 nor as a file of its own. *)
Theorem loop_never_examines_last_index (tw : Z) :
  (forall (fuel : nat) (line : string) (line_num k : nat),
      (forall v, while (CStyle.body tw) fuel line line_num v
                       (length line - 1 + k) = ([], Done v)) /\
      (forall v, while (PyStyle.body tw) fuel line line_num v
                       (length line - 1 + k) = ([], Done v)) /\
      (forall v, while (XmlStyle.body tw) fuel line line_num v
                       (length line - 1 + k) = ([], Done v))) /\
  (forall (p : string) (line_num : nat) (v : PyStyle.vars),
      contains (String hash "") p = false ->
      contains triple_squote (p ++ String hash "") = false ->
      contains triple_dquote (p ++ String hash "") = false ->
      PyStyle.state v = 0 -> PyStyle.comment_block v <> Some true ->
      yielded (scan_line PyStyle.skip (PyStyle.body tw)
                         (p ++ String hash "") line_num v) = []) /\
  (forall p : string,
      contains (String hash "") p = false ->
      contains triple_squote (p ++ String hash "") = false ->
      contains triple_dquote (p ++ String hash "") = false ->
      yielded (py_style tw [(p ++ String hash "")%string]) = []).
Proof.
  assert (Hstop : forall V (body : string -> nat -> V -> nat -> _) fuel line
                         line_num k v,
             while body fuel line line_num v (length line - 1 + k)
             = ([], Done v)).
  { intros V body fuel line line_num k v.
    destruct fuel; simpl;
      destruct (Nat.ltb_spec (length line - 1 + k) (length line - 1));
      try reflexivity; lia. }
  assert (Hline : forall p line_num v,
             contains (String hash "") p = false ->
             contains triple_squote (p ++ String hash "") = false ->
             contains triple_dquote (p ++ String hash "") = false ->
             PyStyle.state v = 0 -> PyStyle.comment_block v <> Some true ->
             yielded (scan_line PyStyle.skip (PyStyle.body tw)
                                (p ++ String hash "") line_num v) = []).
  { intros p line_num v Hh Hq Hd Hs Hcb. unfold scan_line.
    destruct (PyStyle.skip (p ++ String hash "") v); [reflexivity|].
    apply while_before_last_hash; auto. }
  split; [|split].
  - intros fuel line line_num k. repeat split; intros v; apply Hstop.
  - exact Hline.
  - intros p Hh Hq Hd. unfold py_style, PyStyle.run. simpl.
    pose proof (Hline p 1 PyStyle.init Hh Hq Hd eq_refl ltac:(discriminate)) as H.
    destruct (scan_line PyStyle.skip (PyStyle.body tw) (p ++ String hash "") 1
                        PyStyle.init) as [out o].
    unfold yielded in *. simpl in H. subst out.
    destruct o; reflexivity.
Qed.

Lemma loop_never_examines_last_index_witness :
  contains (String hash "") "x = 1 " = false /\
  contains triple_squote ("x = 1 " ++ String hash "") = false /\
  contains triple_dquote ("x = 1 " ++ String hash "") = false /\
  yielded (py_style 4 [("x = 1 " ++ String hash "")%string]) = [].
Proof.
  split; [reflexivity|]. split; [reflexivity|]. split; [reflexivity|].
  apply (proj2 (proj2 (loop_never_examines_last_index 4)) "x = 1 ");
    reflexivity.
Defined.

(** * Further properties of the generators *)

Section SkeletonMore.
Context {V : Type}.
Variable skip : string -> V -> bool.
Variable body : string -> nat -> V -> nat -> list comment * control V.

Lemma while_unfold (fuel : nat) (line : string) (line_num : nat) (v : V)
      (index : nat) :
  index < length line - 1 ->
  while body (S fuel) line line_num v index
  = match body line line_num v index with
    | (out, Next v' index') =>
        let (out', o) := while body fuel line line_num v' (index' + 1) in
        (out ++ out', o)
    | (out, Break v') => (out, Done v')
    | (out, Raise e) => (out, Raised e)
    end.
Proof.
  intros Hi. simpl. destruct (Nat.ltb_spec index (length line - 1)); [|lia].
  reflexivity.
Qed.

Lemma scan_line_short (line : string) (line_num : nat) (v : V) :
  length line <= 1 -> scan_line skip body line line_num v = ([], Done v).
Proof.
  intros Hl. unfold scan_line. destruct (skip line v); [reflexivity|].
  destruct (length line) as [|[|n]] eqn:E; simpl; try rewrite E; simpl;
    try reflexivity; lia.
Qed.

Lemma scan_lines_cons_quiet (line : string) (rest : list string)
      (line_num : nat) (v : V) :
  scan_line skip body line line_num v = ([], Done v) ->
  scan_lines skip body (line :: rest) line_num v
  = scan_lines skip body rest (line_num + 1) v.
Proof.
  intros E. simpl. rewrite E.
  destruct (scan_lines skip body rest (line_num + 1) v); reflexivity.
Qed.

Lemma scan_lines_app (l1 l2 : list string) :
  forall line_num v,
    scan_lines skip body (l1 ++ l2) line_num v
    = match scan_lines skip body l1 line_num v with
      | (out, Done v') =>
          let (out', o) :=
            scan_lines skip body l2 (line_num + List.length l1) v' in
          (out ++ out', o)
      | (out, o) => (out, o)
      end.
Proof.
  induction l1 as [|line l1 IH]; intros line_num v; simpl.
  - rewrite Nat.add_0_r.
    destruct (scan_lines skip body l2 line_num v); reflexivity.
  - destruct (scan_line skip body line line_num v) as [out [v'|e|]];
      try reflexivity.
    rewrite IH.
    destruct (scan_lines skip body l1 (line_num + 1) v') as [out1 [v1|e|]];
      try reflexivity.
    replace (line_num + S (List.length l1))
      with (line_num + 1 + List.length l1) by lia.
    destruct (scan_lines skip body l2 (line_num + 1 + List.length l1) v1)
      as [out2 o2].
    now rewrite app_assoc.
Qed.
End SkeletonMore.

(** X1. A line of at most one character, such as an empty line inside a
    block comment, is passed over by each of the three generators: nothing
    is yielded for it and the variables stay, so the run goes on with the
    next line number as if the line's text were not there. *)
Theorem short_line_passed_over (tw : Z) (line : string) (rest : list string)
        (line_num : nat) :
  length line <= 1 ->
  (forall v, scan_lines CStyle.skip (CStyle.body tw) (line :: rest) line_num v
             = scan_lines CStyle.skip (CStyle.body tw) rest (line_num + 1) v) /\
  (forall v, scan_lines PyStyle.skip (PyStyle.body tw) (line :: rest) line_num v
             = scan_lines PyStyle.skip (PyStyle.body tw) rest (line_num + 1) v) /\
  (forall v, scan_lines XmlStyle.skip (XmlStyle.body tw) (line :: rest) line_num v
             = scan_lines XmlStyle.skip (XmlStyle.body tw) rest (line_num + 1) v).
Proof.
  intros Hl. repeat split; intros v;
    apply scan_lines_cons_quiet, scan_line_short; assumption.
Qed.

Lemma short_line_passed_over_witness :
  length nl <= 1 /\
  scan_lines CStyle.skip (CStyle.body 4) [nl; ("b */" ++ nl)%string] 2
             {| CStyle.state := 2; CStyle.string_start := None |}
  = scan_lines CStyle.skip (CStyle.body 4) [("b */" ++ nl)%string] (2 + 1)
               {| CStyle.state := 2; CStyle.string_start := None |}.
Proof.
  split; [simpl; lia|].
  apply (proj1 (short_line_passed_over 4 nl [("b */" ++ nl)%string] 2
                  ltac:(simpl; lia))).
Defined.

(** X2. What a generator has yielded for the first lines of a file does
    not depend on the lines that follow: the tuples of a prefix of the
    input are a prefix of the tuples of the whole input. *)
Theorem yielded_prefix_stable (tw : Z) (l1 l2 : list string) :
  (exists more, yielded (c_style tw (l1 ++ l2))
                = yielded (c_style tw l1) ++ more) /\
  (exists more, yielded (py_style tw (l1 ++ l2))
                = yielded (py_style tw l1) ++ more) /\
  (exists more, yielded (xml_style tw (l1 ++ l2))
                = yielded (xml_style tw l1) ++ more).
Proof.
  assert (H : forall V (skip : string -> V -> bool) body v,
             exists more,
               fst (scan_lines skip body (l1 ++ l2) 1 v)
               = fst (scan_lines skip body l1 1 v) ++ more).
  { intros V skip body v. rewrite scan_lines_app.
    destruct (scan_lines skip body l1 1 v) as [out [v'|e|]].
    - destruct (scan_lines skip body l2 (1 + List.length l1) v') as [out' o].
      exists out'. reflexivity.
    - exists []. simpl. now rewrite app_nil_r.
    - exists []. simpl. now rewrite app_nil_r. }
  repeat split; apply H.
Qed.

Lemma scan_lines_all_skipped {V : Type} (skip : string -> V -> bool)
      (body : string -> nat -> V -> nat -> list comment * control V)
      (v : V) (lines : list string) :
  Forall (fun line => skip line v = true) lines ->
  forall line_num, scan_lines skip body lines line_num v = ([], Done v).
Proof.
  induction 1 as [|line rest Hs _ IH]; intros line_num; [reflexivity|].
  rewrite scan_lines_cons_quiet; [apply IH|].
  unfold scan_line. now rewrite Hs.
Qed.

(** X3. On a file none of whose lines contains one of its markers, a
    generator yields nothing and ends normally with its variables as they
    were at the start; [py_style] too, which on such a file never reads
    its unbound flag. *)
Theorem no_marker_nothing_yielded (tw : Z) (lines : list string) :
  (Forall (fun line => contains "//" line = false /\
                       contains "/*" line = false /\
                       contains "*/" line = false) lines ->
   c_style tw lines = ([], Done CStyle.init)) /\
  (Forall (fun line => contains (String hash "") line = false /\
                       contains triple_squote line = false /\
                       contains triple_dquote line = false) lines ->
   py_style tw lines = ([], Done PyStyle.init)) /\
  (Forall (fun line => contains "<!--" line = false /\
                       contains "-->" line = false) lines ->
   xml_style tw lines = ([], Done XmlStyle.init)).
Proof.
  repeat split; intros H; apply scan_lines_all_skipped;
    (eapply Forall_impl; [|exact H]); simpl.
  - intros line (H1 & H2 & H3). unfold CStyle.skip. simpl.
    now rewrite H1, H2, H3.
  - intros line (H1 & H2 & H3). unfold PyStyle.skip. simpl.
    now rewrite H1, H2, H3.
  - intros line (H1 & H2). unfold XmlStyle.skip. simpl.
    now rewrite H1, H2.
Qed.

Lemma no_marker_nothing_yielded_witness :
  Forall (fun line => contains (String hash "") line = false /\
                      contains triple_squote line = false /\
                      contains triple_dquote line = false)
         [("x = 1" ++ nl)%string; ("print(x)" ++ nl)%string] /\
  py_style 4 [("x = 1" ++ nl)%string; ("print(x)" ++ nl)%string]
  = ([], Done PyStyle.init).
Proof.
  assert (H : Forall (fun line => contains (String hash "") line = false /\
                                  contains triple_squote line = false /\
                                  contains triple_dquote line = false)
                     [("x = 1" ++ nl)%string; ("print(x)" ++ nl)%string])
    by (repeat constructor).
  split; [exact H|].
  exact (proj1 (proj2 (no_marker_nothing_yielded 4 _)) H).
Defined.

(** ** The test that skips a line of [xml_style] *)

Lemma xml_body_quiet (tw : Z) (line : string) (line_num : nat)
      (v : XmlStyle.vars) (index : nat) :
  XmlStyle.skip line v = true ->
  XmlStyle.body tw line line_num v index = ([], Next v index).
Proof.
  unfold XmlStyle.skip. simpl. intros H.
  apply andb_true_iff in H. destruct H as [H Hs].
  apply andb_true_iff in H. destruct H as [H1 _].
  apply negb_true_iff in H1, Hs.
  pose proof (absent_slice "<!--" line index ltac:(discriminate) H1) as A.
  simpl length in A. unfold XmlStyle.body. rewrite A, Hs.
  destruct (XmlStyle.state v =? 0); reflexivity.
Qed.

Lemma xml_while_quiet (tw : Z) (line : string) (line_num : nat)
      (v : XmlStyle.vars) :
  XmlStyle.skip line v = true ->
  forall fuel index,
    length line - 1 - index <= fuel ->
    while (XmlStyle.body tw) fuel line line_num v index = ([], Done v).
Proof.
  intros Hs. induction fuel as [|fuel IH]; intros index Hf; simpl;
    destruct (Nat.ltb_spec index (length line - 1)) as [Hlt|Hge];
    try reflexivity; try lia.
  rewrite (xml_body_quiet tw line line_num v index Hs), IH by lia.
  reflexivity.
Qed.

(** X4. In [xml_style] the test that skips a line without [<!--] and
    [-->] changes nothing: with the test removed the generator yields the
    same tuples and ends with the same variables, on every input. *)
Theorem xml_style_skip_transparent (tw : Z) (lines : list string) :
  xml_style tw lines = xml_style_noskip tw lines.
Proof.
  unfold xml_style, XmlStyle.run, xml_style_noskip.
  generalize 1 as line_num. generalize XmlStyle.init as v.
  induction lines as [|line rest IH]; intros v line_num; [reflexivity|].
  simpl.
  assert (E : scan_line XmlStyle.skip (XmlStyle.body tw) line line_num v
              = scan_line (fun _ _ => false) (XmlStyle.body tw) line line_num v).
  { unfold scan_line. destruct (XmlStyle.skip line v) eqn:Es; [|reflexivity].
    symmetry. apply xml_while_quiet; [assumption|lia]. }
  rewrite E.
  destruct (scan_line (fun _ _ => false) (XmlStyle.body tw) line line_num v)
    as [out [v'| |]]; try reflexivity.
  now rewrite IH.
Qed.

(** ** The index [c_style] reports *)

Lemma scan_lines_lift {V : Type} (skip : string -> V -> bool)
      (body : string -> nat -> V -> nat -> list comment * control V)
      (P : string -> nat -> comment -> Prop) :
  (forall line line_num v,
      Forall (P line line_num) (fst (scan_line skip body line line_num v))) ->
  forall lines line_num v,
    Forall (fun r => exists k line,
                nth_error lines k = Some line /\ P line (line_num + k) r)
           (fst (scan_lines skip body lines line_num v)).
Proof.
  intros Hline. induction lines as [|line rest IH]; intros line_num v; simpl;
    [constructor|].
  pose proof (Hline line line_num v) as Hout.
  destruct (scan_line skip body line line_num v) as [out o]. simpl in Hout.
  assert (Hhead : Forall (fun r => exists k l,
              nth_error (line :: rest) k = Some l /\ P l (line_num + k) r) out).
  { eapply Forall_impl; [|exact Hout]. intros r Hr.
    exists 0, line. rewrite Nat.add_0_r. auto. }
  destruct o as [v'|e|]; simpl; auto.
  specialize (IH (line_num + 1) v').
  destruct (scan_lines skip body rest (line_num + 1) v') as [out' o'].
  simpl in *. apply Forall_app; split; [assumption|].
  eapply Forall_impl; [|exact IH]. intros r (k & l & Hk & Hr).
  exists (S k), l. split; [assumption|].
  replace (line_num + S k) with (line_num + 1 + k) by lia. assumption.
Qed.

Lemma expand_0 (tw : Z) (line : string) : expand tw line 0 = 0%Z.
Proof. reflexivity. Qed.

Lemma c_body_exact (tw : Z) (line : string) (line_num : nat)
      (v : CStyle.vars) (index : nat) (out : list comment)
      (ctl : control CStyle.vars) :
  index < length line - 1 ->
  (CStyle.state v = 2 -> index = 0) ->
  CStyle.body tw line line_num v index = (out, ctl) ->
  Forall (exact_at tw line line_num) out /\
  match ctl with
  | Next v' _ => CStyle.state v' <> 2
  | _ => True
  end.
Proof.
  intros Hi H2 Hb. unfold CStyle.body in Hb.
  assert (Hfirst : forall txt,
             (txt = slice_from line (index + 2) \/
              exists pos, txt = slice line (index + 2) pos) ->
             Forall (exact_at tw line line_num)
                    [Yield txt line_num
                           (Z.of_nat (index + 2)
                            + Z.of_nat (count tab line 0 (index + 2))
                              * (tw - 1))]).
  { intros txt Ht. apply Forall_cons; [|apply Forall_nil].
    split; [reflexivity|]. exists (index + 2).
    split; [lia|]. split; [exact Ht|reflexivity]. }
  assert (Hcont : forall txt,
             CStyle.state v = 2 ->
             (txt = slice_from line index \/
              exists pos, txt = slice line index pos) ->
             Forall (exact_at tw line line_num)
                    [Yield txt line_num (Z.of_nat index)]).
  { intros txt Hs Ht. rewrite (H2 Hs) in *.
    apply Forall_cons; [|apply Forall_nil].
    split; [reflexivity|]. exists 0.
    split; [lia|]. split; [exact Ht|]. now rewrite expand_0. }
  destruct (CStyle.state v =? 0) eqn:E0;
    [|destruct (CStyle.state v =? 1) eqn:E1;
      [|destruct (CStyle.state v =? 2) eqn:E2]].
  - apply Nat.eqb_eq in E0.
    split_body Hb; injection Hb as <- <-;
      (split; [first [apply Forall_nil|apply Hfirst; eauto]
              |simpl; try exact I; try rewrite E0; discriminate]).
  - apply Nat.eqb_eq in E1.
    split_body Hb; injection Hb as <- <-;
      (split; [apply Forall_nil
              |simpl; try exact I; try rewrite E1; discriminate]).
  - apply Nat.eqb_eq in E2.
    split_body Hb; injection Hb as <- <-;
      (split; [apply Hcont; eauto|simpl; try exact I; discriminate]).
  - injection Hb as <- <-. split; [apply Forall_nil|].
    apply Nat.eqb_neq in E2. exact E2.
Qed.

Lemma c_while_exact (tw : Z) (line : string) (line_num : nat) (fuel : nat) :
  forall v index,
    (CStyle.state v = 2 -> index = 0) ->
    Forall (exact_at tw line line_num)
           (fst (while (CStyle.body tw) fuel line line_num v index)).
Proof.
  induction fuel as [|fuel IH]; intros v index H2; simpl;
    destruct (Nat.ltb_spec index (length line - 1)) as [Hlt|Hge];
    try apply Forall_nil.
  destruct (CStyle.body tw line line_num v index) as [out ctl] eqn:Eb.
  destruct (c_body_exact _ _ _ _ _ _ _ Hlt H2 Eb) as [Hout Hctl].
  destruct ctl as [v' index'|v'|e]; simpl; auto.
  specialize (IH v' (index' + 1) ltac:(intros; contradiction)).
  destruct (while (CStyle.body tw) fuel line line_num v' (index' + 1))
    as [out' o].
  simpl in *. apply Forall_app; auto.
Qed.

(** X5. Every tuple [c_style] yields has its text cut from the line of
    its number at some raw index, up to the end of the line or to a later
    position, and its index is exactly the TAB-expanded position of that
    raw index: the raw index plus [SPACES_FOR_TAB - 1] for every TAB that
    precedes it. *)
Theorem c_style_index_is_expanded (tw : Z) (lines : list string) :
  Forall (fun r => exists line,
              nth_error lines (lineno r - 1) = Some line /\
              exact_at tw line (lineno r) r)
         (yielded (c_style tw lines)).
Proof.
  pose proof (scan_lines_lift CStyle.skip (CStyle.body tw) (exact_at tw)) as H.
  eapply Forall_impl; [|apply H].
  - intros r (k & line & Hk & Hr). exists line.
    destruct Hr as [Hl Hr]. rewrite Hl.
    replace (1 + k - 1) with k by lia. split; [assumption|].
    split; [exact Hl|assumption].
  - intros line line_num v. unfold scan_line.
    destruct (CStyle.skip line v); [apply Forall_nil|].
    apply c_while_exact. reflexivity.
Qed.

(** ** When [py_style] raises *)

Lemma py_idle_line (tw : Z) (line : string) (line_num : nat) :
  py_idle line = true ->
  scan_line PyStyle.skip (PyStyle.body tw) line line_num PyStyle.init
  = ([], Done PyStyle.init).
Proof.
  unfold py_idle. intros H. apply orb_true_iff in H. destruct H as [H|H].
  - unfold scan_line. now rewrite H.
  - apply scan_line_short. now apply Nat.leb_le.
Qed.

Lemma py_idle_prefix (tw : Z) (pre rest : list string) :
  Forall (fun l => py_idle l = true) pre ->
  forall line_num,
    scan_lines PyStyle.skip (PyStyle.body tw) (pre ++ rest) line_num PyStyle.init
    = scan_lines PyStyle.skip (PyStyle.body tw) rest
                 (line_num + List.length pre) PyStyle.init.
Proof.
  induction 1 as [|l pre Hl _ IH]; intros line_num; simpl app.
  - simpl. now rewrite Nat.add_0_r.
  - rewrite scan_lines_cons_quiet by (now apply py_idle_line).
    rewrite IH. f_equal. simpl. lia.
Qed.

Lemma py_not_idle (line : string) :
  py_idle line = false ->
  PyStyle.skip line PyStyle.init = false /\ 0 < length line - 1.
Proof.
  unfold py_idle. intros H. apply orb_false_iff in H. destruct H as [Hs Hl].
  apply Nat.leb_gt in Hl. split; [assumption|lia].
Qed.

(** X6. [py_style] raises UnboundLocalError on the first line it scans
    (the first line that has a [#] or a triple quote and more than one
    character) unless that line starts with a triple quote.  By then it has
    yielded nothing, or, when the line starts with [#], the one tuple for
    that [#]; lines after it are never read. *)
Theorem py_style_raises_unless_triple_first
        (tw : Z) (pre : list string) (line : string) (rest : list string) :
  Forall (fun l => py_idle l = true) pre ->
  py_idle line = false ->
  slice line 0 3 <> triple_squote ->
  slice line 0 3 <> triple_dquote ->
  py_style tw (pre ++ line :: rest)
  = ((if (slice line 0 1 =? String hash "")%string
      then [Yield (slice_from line 1) (1 + List.length pre)
                  (1 + Z.of_nat (count tab line 0 2) * (tw - 1))]
      else []),
     Raised (UnboundLocalError "comment_block")).
Proof.
  intros Hpre Hline Hs Hd. unfold py_style, PyStyle.run.
  rewrite py_idle_prefix by assumption.
  destruct (py_not_idle line Hline) as [Hskip Hlen].
  simpl. unfold scan_line. rewrite Hskip.
  replace (length line) with (S (length line - 1)) at 1 by lia.
  rewrite while_unfold by assumption.
  destruct (getitem_in_loop line 0 Hlen) as [c Hc].
  unfold PyStyle.body. simpl PyStyle.state. rewrite Hc. simpl Nat.eqb.
  cbv iota. unfold PyStyle.first_if. simpl Nat.add.
  rewrite getitem_nat in Hc. pose proof (get_slice1 _ _ _ Hc) as H1.
  simpl Nat.add in H1. rewrite H1.
  apply String.eqb_neq in Hs, Hd. rewrite Hs, Hd.
  destruct (Ascii.eqb c hash) eqn:Eh.
  - apply Ascii.eqb_eq in Eh. subst c. rewrite String.eqb_refl. reflexivity.
  - replace (String c "" =? String hash "")%string with false; [reflexivity|].
    symmetry. apply String.eqb_neq. intros [= ->].
    now rewrite Ascii.eqb_refl in Eh.
Qed.

Lemma py_style_raises_unless_triple_first_witness :
  Forall (fun l => py_idle l = true) [("import os" ++ nl)%string; nl] /\
  py_idle (String hash (" note" ++ nl)) = false /\
  py_style 4 ([("import os" ++ nl)%string; nl]
              ++ String hash (" note" ++ nl) :: [("x = 1" ++ nl)%string])
  = ([Yield (" note" ++ nl)%string 3 1],
     Raised (UnboundLocalError "comment_block")).
Proof.
  assert (H : Forall (fun l => py_idle l = true)
                     [("import os" ++ nl)%string; nl])
    by (repeat constructor).
  split; [exact H|]. split; [reflexivity|].
  exact (py_style_raises_unless_triple_first 4 _ (String hash (" note" ++ nl))
           [("x = 1" ++ nl)%string] H eq_refl
           ltac:(discriminate) ltac:(discriminate)).
Defined.

(** Once [comment_block] is bound, it and [block_start] stay bound. *)
Lemma py_body_bound (tw : Z) :
  body_ok (PyStyle.body tw)
          (fun v => PyStyle.comment_block v = Some false /\
                    PyStyle.block_start v <> None)
          (fun _ _ _ => True) nothing_raised.
Proof.
  intros line line_num v index out ctl [Hcb Hbs] Hi Hb.
  unfold PyStyle.body in Hb.
  destruct (getitem_in_loop line index Hi) as [c Hc]. rewrite Hc in Hb.
  destruct (PyStyle.block_start v) as [delim|] eqn:Eb; [|congruence].
  assert (Hall : forall l : list comment, Forall (fun _ => True) l)
    by (intros l; apply Forall_forall; auto).
  destruct (PyStyle.state v =? 0);
    [|destruct (PyStyle.state v =? 1)].
  - unfold PyStyle.first_if, PyStyle.second_if in Hb.
    destruct (Ascii.eqb c hash);
      [|destruct (slice line index (index + 3) =? triple_squote)%string;
        [|destruct (slice line index (index + 3) =? triple_dquote)%string]];
      simpl in Hb; try rewrite Hcb in Hb; try rewrite Eb in Hb;
      try match type of Hb with
          | context [find ?a ?b ?c] => destruct (find a b c) eqn:?
          end;
      simpl in Hb; injection Hb as <- <-;
      (split; [apply Hall|]); simpl;
      repeat match goal with
             | H : find _ _ _ = Some _ |- _ => apply find_ge in H
             end;
      repeat split; try congruence; try discriminate; lia.
  - destruct (find delim line index) as [pos|] eqn:Ef; injection Hb as <- <-;
      (split; [apply Hall|]); simpl.
    + apply find_ge in Ef. repeat split; try congruence; lia.
    + split; congruence.
  - injection Hb as <- <-. split; [apply Hall|].
    repeat split; try congruence; lia.
Qed.

(** X7. When the first line [py_style] scans starts with a triple quote,
    the generator ends normally, whatever the lines that follow: from then
    on the flag is bound and nothing else can raise. *)
Theorem py_style_returns_after_triple_first
        (tw : Z) (pre : list string) (line : string) (rest : list string) :
  Forall (fun l => py_idle l = true) pre ->
  slice line 0 3 = triple_squote \/ slice line 0 3 = triple_dquote ->
  exists v, ending (py_style tw (pre ++ line :: rest)) = Done v.
Proof.
  intros Hpre Htr. unfold py_style, PyStyle.run, ending.
  rewrite py_idle_prefix by assumption.
  generalize (1 + List.length pre) as ln. intros ln.
  set (bound := fun v => PyStyle.comment_block v = Some false /\
                         PyStyle.block_start v <> None).
  assert (Hline : ends_well bound nothing_raised
                    (snd (scan_line PyStyle.skip (PyStyle.body tw) line
                                    ln PyStyle.init))).
  { assert (Hlen : 0 < length line - 1).
    { destruct Htr as [H|H];
        [destruct (slice_fits line triple_squote 0 H) as [H0|H0]
        |destruct (slice_fits line triple_dquote 0 H) as [H0|H0]];
        try discriminate H0; simpl in H0; lia. }
    assert (Hskip : PyStyle.skip line PyStyle.init = false).
    { unfold PyStyle.skip. simpl.
      destruct (contains triple_squote line) eqn:Cs;
        destruct (contains triple_dquote line) eqn:Cd;
        rewrite ?andb_false_r; try reflexivity; simpl;
        try now rewrite andb_false_r.
      exfalso.
      pose proof (absent_slice triple_squote line 0 ltac:(discriminate) Cs) as A1.
      pose proof (absent_slice triple_dquote line 0 ltac:(discriminate) Cd) as A2.
      simpl in A1, A2. apply String.eqb_neq in A1, A2.
      destruct Htr; contradiction. }
    unfold scan_line. rewrite Hskip.
    replace (length line) with (S (length line - 1)) at 1 by lia.
    rewrite while_unfold by assumption.
    destruct (getitem_in_loop line 0 Hlen) as [c Hc].
    assert (Eh : Ascii.eqb c hash = false).
    { rewrite getitem_nat in Hc. apply get_slice1 in Hc.
      apply Ascii.eqb_neq. intros ->.
      unfold slice in *. simpl in Hc, Htr.
      destruct line as [|c0 [|c1 [|c2 l]]]; simpl in Hc, Htr;
        destruct Htr as [H|H]; try discriminate H;
        injection Hc as ->; discriminate H. }
    assert (Hrest : forall v index out,
               bound v ->
               ends_well bound nothing_raised
                 (snd (let (out', o) :=
                         while (PyStyle.body tw) (length line - 1) line
                               ln v (index + 1)
                       in (out ++ out', o)))).
    { intros v index out Hv.
      destruct (while_ok (PyStyle.body tw) bound (fun _ _ _ => True)
                  nothing_raised (py_body_bound tw) (length line - 1) line
                  ln v (index + 1) Hv ltac:(lia))
        as [_ He].
      destruct (while (PyStyle.body tw) (length line - 1) line
                      ln v (index + 1)); exact He. }
    unfold PyStyle.body. simpl PyStyle.state. rewrite Hc. simpl Nat.eqb.
    cbv iota. unfold PyStyle.first_if. rewrite Eh. simpl Nat.add.
    destruct Htr as [H|H]; rewrite H.
    - rewrite String.eqb_refl. unfold PyStyle.second_if. simpl.
      destruct (find triple_squote line 3) as [pos|].
      + apply Hrest. split; [reflexivity|discriminate].
      + simpl. split; [reflexivity|discriminate].
    - replace (triple_dquote =? triple_squote)%string with false by reflexivity.
      rewrite String.eqb_refl. unfold PyStyle.second_if. simpl.
      destruct (find triple_dquote line 3) as [pos|].
      + apply Hrest. split; [reflexivity|discriminate].
      + simpl. split; [reflexivity|discriminate]. }
  simpl.
  destruct (scan_line PyStyle.skip (PyStyle.body tw) line
                      ln PyStyle.init) as [out [v'|e|]];
    simpl in Hline; try contradiction.
  destruct (scan_lines_ok PyStyle.skip (PyStyle.body tw) bound
              (fun _ _ _ => True) nothing_raised (py_body_bound tw)
              rest (ln + 1) v' Hline) as [_ He].
  destruct (scan_lines PyStyle.skip (PyStyle.body tw) rest
                       (ln + 1) v') as [out' [v''|e|]];
    simpl in He; try contradiction.
  simpl. eauto.
Qed.

Lemma py_style_returns_after_triple_first_witness :
  Forall (fun l => py_idle l = true) [("import os" ++ nl)%string] /\
  (slice (triple_dquote ++ "doc" ++ nl) 0 3 = triple_squote \/
   slice (triple_dquote ++ "doc" ++ nl) 0 3 = triple_dquote) /\
  exists v,
    ending (py_style 4 ([("import os" ++ nl)%string]
                        ++ (triple_dquote ++ "doc" ++ nl)%string
                        :: [(String hash " x" ++ nl)%string]))
    = Done v.
Proof.
  assert (H : Forall (fun l => py_idle l = true) [("import os" ++ nl)%string])
    by (repeat constructor).
  split; [exact H|]. split; [right; reflexivity|].
  exact (py_style_returns_after_triple_first 4
           [("import os" ++ nl)%string] (triple_dquote ++ "doc" ++ nl)
           [(String hash " x" ++ nl)%string] H (or_intror eq_refl)).
Defined.

(** ** A line inside an open block *)

Lemma find_absent (sub line : string) :
  contains sub line = false -> find sub line 0 = None.
Proof.
  unfold contains, find. simpl.
  destruct (search sub line); [discriminate|reflexivity].
Qed.

Lemma while_first_pass {V : Type}
      (body : string -> nat -> V -> nat -> list comment * control V)
      (line : string) (line_num : nat) (v : V) :
  2 <= length line ->
  while body (length line) line line_num v 0
  = match body line line_num v 0 with
    | (out, Next v' index') =>
        let (out', o) :=
          while body (length line - 1) line line_num v' (index' + 1) in
        (out ++ out', o)
    | (out, Break v') => (out, Done v')
    | (out, Raise e) => (out, Raised e)
    end.
Proof.
  intros Hl. replace (length line) with (S (length line - 1)) at 1 by lia.
  apply while_unfold. lia.
Qed.

(** X8. A line of at least two characters that is read while a block is
    open and does not contain the closing delimiter is yielded whole, with
    index 0, and the block stays open: in [c_style] (state 2, [*/]), in
    [py_style] (state 1, the remembered triple quote) and in [xml_style]
    (state 1, [-->]). *)
Theorem line_inside_block_yielded_whole (tw : Z) (line : string)
        (line_num : nat) :
  2 <= length line ->
  (contains "*/" line = false ->
   forall q,
     scan_line CStyle.skip (CStyle.body tw) line line_num
               {| CStyle.state := 2; CStyle.string_start := q |}
     = ([Yield line line_num 0],
        Done {| CStyle.state := 2; CStyle.string_start := q |})) /\
  (forall delim flag,
      contains delim line = false ->
      scan_line PyStyle.skip (PyStyle.body tw) line line_num
                {| PyStyle.state := 1; PyStyle.block_start := Some delim;
                   PyStyle.comment_block := flag |}
      = ([Yield line line_num 0],
         Done {| PyStyle.state := 1; PyStyle.block_start := Some delim;
                 PyStyle.comment_block := flag |})) /\
  (contains "-->" line = false ->
   scan_line XmlStyle.skip (XmlStyle.body tw) line line_num
             {| XmlStyle.state := 1 |}
   = ([Yield line line_num 0], Done {| XmlStyle.state := 1 |})).
Proof.
  intros Hl. split; [|split].
  - intros Hc q. unfold scan_line, CStyle.skip. simpl CStyle.state.
    simpl Nat.eqb. simpl negb. rewrite andb_false_r.
    rewrite while_first_pass by assumption.
    unfold CStyle.body. simpl. now rewrite (find_absent _ _ Hc).
  - intros delim flag Hc. unfold scan_line, PyStyle.skip. simpl PyStyle.state.
    simpl Nat.eqb. simpl negb. rewrite andb_false_r.
    rewrite while_first_pass by assumption.
    unfold PyStyle.body. simpl. now rewrite (find_absent _ _ Hc).
  - intros Hc. unfold scan_line, XmlStyle.skip. simpl XmlStyle.state.
    simpl Nat.eqb. simpl negb. rewrite andb_false_r.
    rewrite while_first_pass by assumption.
    unfold XmlStyle.body. simpl. now rewrite (find_absent _ _ Hc).
Qed.

Lemma line_inside_block_yielded_whole_witness :
  2 <= length ("middle" ++ nl) /\
  contains "*/" ("middle" ++ nl) = false /\
  scan_line CStyle.skip (CStyle.body 4) ("middle" ++ nl) 2
            {| CStyle.state := 2; CStyle.string_start := None |}
  = ([Yield ("middle" ++ nl)%string 2 0],
     Done {| CStyle.state := 2; CStyle.string_start := None |}).
Proof.
  split; [simpl; lia|]. split; [reflexivity|].
  exact (proj1 (line_inside_block_yielded_whole 4 ("middle" ++ nl) 2
                  ltac:(simpl; lia)) eq_refl None).
Defined.

(** ** The character before index 0 *)

Lemma get_last (s : string) :
  s <> "" -> String.get (length s - 1) s = last_char s.
Proof.
  induction s as [|c s IH]; [congruence|]. intros _.
  destruct s as [|d s]; [reflexivity|].
  specialize (IH ltac:(discriminate)).
  replace (length (String c (String d s)) - 1)
    with (S (length (String d s) - 1)) by (simpl; lia).
  change (String.get (S (length (String d s) - 1)) (String c (String d s)))
    with (String.get (length (String d s) - 1) (String d s)).
  rewrite IH. reflexivity.
Qed.

Lemma getitem_minus_1 (s : string) :
  s <> "" -> getitem s (-1) = last_char s.
Proof.
  intros Hne. unfold getitem. simpl Z.leb.
  assert (Hl : 1 <= length s) by (destruct s; [congruence|simpl; lia]).
  destruct (Z.leb_spec (- Z.of_nat (length s)) (-1)); [|lia].
  replace (Z.to_nat (Z.of_nat (length s) + -1)) with (length s - 1) by lia.
  now apply get_last.
Qed.

(** The pass at index 0 in state 1, on a line that starts with the
    remembered quote: [line[index-1]] is the last character of the line. *)
Lemma c_body_quote_at_index_0 (tw : Z) (line : string) (line_num : nat)
        (q : ascii) :
  2 <= length line ->
  String.get 0 line = Some q ->
  CStyle.body tw line line_num
              {| CStyle.state := 1; CStyle.string_start := Some q |} 0
  = ([], Next {| CStyle.state :=
                   match last_char line with
                   | Some c => if Ascii.eqb c backslash then 1 else 0
                   | None => 1
                   end;
                 CStyle.string_start := Some q |} 0).
Proof.
  intros Hl Hq. unfold CStyle.body. simpl CStyle.state. simpl Nat.eqb.
  cbv iota. simpl CStyle.string_start.
  rewrite getitem_nat, Hq, Ascii.eqb_refl.
  simpl Z.sub. rewrite getitem_minus_1
    by (destruct line; [simpl in Hl; lia|discriminate]).
  destruct (last_char line) as [c|] eqn:El.
  - destruct (Ascii.eqb c backslash); reflexivity.
  - exfalso. clear -El Hl.
    assert (G : forall s, s <> "" -> last_char s <> None).
    { induction s as [|a s IH]; [congruence|]. intros _.
      destruct s; [discriminate|]. apply IH. discriminate. }
    apply (G line); [destruct line; [simpl in Hl; lia|discriminate]|assumption].
Qed.

(** X9. [c_style] reaches, in state 1, a line of at least two characters
    that starts with the remembered quote.  If the line has none of [//],
    [/*] and [*/], it is skipped and the string stays open.  Otherwise the
    escape test at index 0 reads [line[index-1]], the last character of the
    line: the scan goes on from index 1 outside the string when the line
    does not end in a backslash, and inside it when it does. *)
Theorem c_style_quote_at_line_start (tw : Z) (line : string) (line_num : nat)
        (q : ascii) :
  2 <= length line ->
  String.get 0 line = Some q ->
  scan_line CStyle.skip (CStyle.body tw) line line_num
            {| CStyle.state := 1; CStyle.string_start := Some q |}
  = if CStyle.skip line {| CStyle.state := 1; CStyle.string_start := Some q |}
    then ([], Done {| CStyle.state := 1; CStyle.string_start := Some q |})
    else while (CStyle.body tw) (length line - 1) line line_num
               {| CStyle.state :=
                    match last_char line with
                    | Some c => if Ascii.eqb c backslash then 1 else 0
                    | None => 1
                    end;
                  CStyle.string_start := Some q |} (0 + 1).
Proof.
  intros Hl Hq. unfold scan_line.
  destruct (CStyle.skip line
              {| CStyle.state := 1; CStyle.string_start := Some q |});
    [reflexivity|].
  rewrite while_first_pass by assumption.
  rewrite (c_body_quote_at_index_0 tw line line_num q Hl Hq).
  destruct (while (CStyle.body tw) (length line - 1) line line_num _ (0 + 1)).
  reflexivity.
Qed.

Lemma c_style_quote_at_line_start_witness :
  2 <= length (quote ++ "; // c" ++ String backslash "") /\
  String.get 0 (quote ++ "; // c" ++ String backslash "") = Some dquote /\
  scan_line CStyle.skip (CStyle.body 4)
            (quote ++ "; // c" ++ String backslash "") 2
            {| CStyle.state := 1; CStyle.string_start := Some dquote |}
  = ([], Done {| CStyle.state := 1; CStyle.string_start := Some dquote |}) /\
  scan_line CStyle.skip (CStyle.body 4) (quote ++ "; // c" ++ nl) 2
            {| CStyle.state := 1; CStyle.string_start := Some dquote |}
  = ([Yield (" c" ++ nl)%string 2 5],
     Done {| CStyle.state := 0; CStyle.string_start := Some dquote |}) /\
  scan_line CStyle.skip (CStyle.body 4) (quote ++ ";" ++ nl) 2
            {| CStyle.state := 1; CStyle.string_start := Some dquote |}
  = ([], Done {| CStyle.state := 1; CStyle.string_start := Some dquote |}).
Proof.
  split; [simpl; lia|]. split; [reflexivity|].
  split; [|split].
  - rewrite (c_style_quote_at_line_start 4
               (quote ++ "; // c" ++ String backslash "") 2 dquote
               ltac:(simpl; lia) eq_refl).
    vm_compute. reflexivity.
  - rewrite (c_style_quote_at_line_start 4 (quote ++ "; // c" ++ nl) 2 dquote
               ltac:(simpl; lia) eq_refl).
    vm_compute. reflexivity.
  - rewrite (c_style_quote_at_line_start 4 (quote ++ ";" ++ nl) 2 dquote
               ltac:(simpl; lia) eq_refl).
    vm_compute. reflexivity.
Defined.

(** ** Strings put together *)

Lemma drop_app_length (p s : string) (k : nat) :
  drop (length p + k) (p ++ s) = drop k s.
Proof. induction p as [|c p IH]; simpl; auto. Qed.

Lemma take_app_length (p s : string) (k : nat) :
  take (length p + k) (p ++ s) = (p ++ take k s)%string.
Proof. induction p as [|c p IH]; simpl; [reflexivity|now rewrite IH]. Qed.

Lemma occurrences_app (c : ascii) (p s : string) :
  occurrences c (p ++ s) = occurrences c p + occurrences c s.
Proof. induction p as [|d p IH]; simpl; [reflexivity|rewrite IH; lia]. Qed.

Lemma lower_app (a s : string) : lower (a ++ s) = (lower a ++ lower s)%string.
Proof. induction a as [|c a IH]; simpl; [reflexivity|now rewrite IH]. Qed.

Lemma length_lower (s : string) : length (lower s) = length s.
Proof. induction s as [|c s IH]; simpl; auto. Qed.

Lemma endswith_app (a s suffix : string) :
  length suffix <= length s ->
  endswith (a ++ s) suffix = endswith s suffix.
Proof.
  intros Hl. unfold endswith. rewrite length_append.
  replace (length a + length s - length suffix)
    with (length a + (length s - length suffix)) by lia.
  rewrite drop_app_length.
  destruct (Nat.leb_spec (length suffix) (length a + length s)); [|lia].
  destruct (Nat.leb_spec (length suffix) (length s)); [|lia].
  reflexivity.
Qed.

(** X10. [check_file] looks at the last five characters of the path only:
    putting anything, a directory for instance, before a path of at least
    five characters does not change the generator it selects. *)
Theorem check_file_decided_by_last_five (dir src_file : string) :
  5 <= length src_file ->
  check_file (dir ++ src_file) = check_file src_file.
Proof.
  intros Hl. unfold check_file, endswith_any. rewrite lower_app. simpl existsb.
  rewrite !endswith_app by (rewrite length_lower; simpl; lia).
  reflexivity.
Qed.

Lemma check_file_decided_by_last_five_witness :
  5 <= length "b.htm" /\
  check_file ("src/a.py/" ++ "b.htm") = check_file "b.htm".
Proof.
  split; [simpl; lia|].
  exact (check_file_decided_by_last_five "src/a.py/" "b.htm"
           ltac:(simpl; lia)).
Defined.

(** ** Every [#] of a line *)

Section HashLine.
Variable tw : Z.
Variable line : string.
Variable line_num : nat.
Variable v : PyStyle.vars.
Hypothesis in_state_0 : PyStyle.state v = 0.
Hypothesis flag_bound : PyStyle.comment_block v = Some false.
Hypothesis no_triple :
  contains triple_squote line = false /\ contains triple_dquote line = false.

Definition hash_tuple (i : nat) : comment :=
  Yield (slice_from line (i + 1)) line_num
        (Z.of_nat (i + 1) + Z.of_nat (count tab line 0 (i + 2)) * (tw - 1)).

Definition hash_here (i : nat) : bool :=
  match String.get i line with
  | Some c => Ascii.eqb c hash
  | None => false
  end.

Lemma body_hash_line (index : nat) :
  index < length line - 1 ->
  PyStyle.body tw line line_num v index
  = ((if hash_here index then [hash_tuple index] else []), Next v index).
Proof.
  intros Hi. destruct no_triple as [Hq Hd].
  destruct (getitem_in_loop line index Hi) as [c Hc].
  pose proof (absent_slice triple_squote _ index ltac:(discriminate) Hq) as A1.
  pose proof (absent_slice triple_dquote _ index ltac:(discriminate) Hd) as A2.
  simpl length in A1, A2.
  unfold PyStyle.body, PyStyle.first_if. rewrite in_state_0, Hc. simpl Nat.eqb.
  cbv iota. rewrite A1, A2.
  unfold hash_here. rewrite getitem_nat in Hc. rewrite Hc.
  assert (Hv : PyStyle.set_state v 0 = v)
    by (destruct v; simpl in *; subst; reflexivity).
  destruct (Ascii.eqb c hash); unfold PyStyle.second_if; rewrite ?Hv;
    simpl; rewrite flag_bound; reflexivity.
Qed.

Lemma while_hash_line (fuel : nat) :
  forall index,
    length line - 1 - index <= fuel ->
    while (PyStyle.body tw) fuel line line_num v index
    = (map hash_tuple
           (filter hash_here (seq index (length line - 1 - index))),
       Done v).
Proof.
  induction fuel as [|fuel IH]; intros index Hf; simpl;
    destruct (Nat.ltb_spec index (length line - 1)) as [Hlt|Hge];
    try lia.
  - replace (length line - 1 - index) with 0 by lia. reflexivity.
  - rewrite (body_hash_line index Hlt), IH by lia.
    replace (length line - 1 - index)
      with (S (length line - 1 - (index + 1))) by lia.
    simpl seq. simpl filter. replace (S index) with (index + 1) by lia.
    destruct (hash_here index); reflexivity.
  - replace (length line - 1 - index) with 0 by lia. reflexivity.
Qed.
End HashLine.

Lemma hash_indices_absent (line : string) :
  contains (String hash "") line = false -> hash_indices line = [].
Proof.
  intros H. unfold hash_indices.
  induction (seq 0 (length line - 1)) as [|i l IH]; [reflexivity|]. simpl.
  destruct (String.get i line) as [c|] eqn:E; [|assumption].
  destruct (Ascii.eqb c hash) eqn:Eh; [|assumption].
  apply Ascii.eqb_eq in Eh. subst c. now apply absent_char in E.
Qed.

(** X11. On a line without a triple quote, read in state 0 once the flag
    is bound, [py_style] yields one tuple for every [#] before the last
    index of the line, in order, each with the text from after that [#] to
    the end of the line; a [#] inside the text of an earlier one is
    yielded again.  The variables are left as they were. *)
Theorem py_style_every_hash_yields (tw : Z) (line : string) (line_num : nat)
        (v : PyStyle.vars) :
  PyStyle.state v = 0 ->
  PyStyle.comment_block v = Some false ->
  contains triple_squote line = false ->
  contains triple_dquote line = false ->
  scan_line PyStyle.skip (PyStyle.body tw) line line_num v
  = (map (fun i =>
            Yield (slice_from line (i + 1)) line_num
                  (Z.of_nat (i + 1)
                   + Z.of_nat (count tab line 0 (i + 2)) * (tw - 1)))
         (hash_indices line),
     Done v).
Proof.
  intros Hs Hf Hq Hd. unfold scan_line.
  destruct (PyStyle.skip line v) eqn:Es.
  - unfold PyStyle.skip in Es. simpl in Es.
    apply andb_true_iff in Es. destruct Es as [Es _].
    apply andb_true_iff in Es. destruct Es as [Eh _].
    apply negb_true_iff in Eh. now rewrite (hash_indices_absent line Eh).
  - rewrite (while_hash_line tw line line_num v Hs Hf (conj Hq Hd))
      by lia.
    rewrite Nat.sub_0_r. reflexivity.
Qed.

Lemma py_style_every_hash_yields_witness :
  contains triple_squote (String hash " a " ++ String hash " b" ++ nl) = false /\
  contains triple_dquote (String hash " a " ++ String hash " b" ++ nl) = false /\
  scan_line PyStyle.skip (PyStyle.body 4)
            (String hash " a " ++ String hash " b" ++ nl) 7
            (PyStyle.clear_comment_block PyStyle.init)
  = ([Yield (" a " ++ String hash " b" ++ nl)%string 7 1;
      Yield (" b" ++ nl)%string 7 5],
     Done (PyStyle.clear_comment_block PyStyle.init)).
Proof.
  split; [reflexivity|]. split; [reflexivity|].
  exact (py_style_every_hash_yields 4
           (String hash " a " ++ String hash " b" ++ nl) 7
           (PyStyle.clear_comment_block PyStyle.init)
           eq_refl eq_refl eq_refl eq_refl).
Defined.

(** ** A line with one [//] comment *)

Lemma prefix_app (sub c : string) : prefix sub (sub ++ c) = true.
Proof.
  apply prefix_take. rewrite <- (Nat.add_0_r (length sub)).
  rewrite take_app_length. simpl.
  induction sub as [|a sub IH]; simpl; [reflexivity|now rewrite IH].
Qed.

Lemma contains_app (p sub c : string) : contains sub (p ++ sub ++ c) = true.
Proof.
  unfold contains.
  assert (H : search sub (p ++ sub ++ c) <> None).
  { induction p as [|a p IH]; simpl append; rewrite search_unfold.
    - rewrite prefix_app. discriminate.
    - destruct (prefix sub (String a (p ++ sub ++ c))); [discriminate|].
      destruct (search sub (p ++ sub ++ c)); [discriminate|].
      contradiction. }
  destruct (search sub (p ++ sub ++ c)); [reflexivity|contradiction].
Qed.

Lemma slice_first_char (s t : string) (i n : nat) (a : ascii) :
  slice s i (i + S n) = String a t -> String.get i s = Some a.
Proof.
  rewrite slice_window. revert s.
  induction i as [|i IH]; intros [|d s]; simpl; try discriminate.
  - intros [= -> _]. reflexivity.
  - apply IH.
Qed.

Section LineComment.
Variable tw : Z.
Variable p c : string.
Variable line_num : nat.
Variable v : CStyle.vars.
Hypothesis in_state_0 : CStyle.state v = 0.
Hypothesis no_slash : contains "/" p = false.
Hypothesis no_quote :
  contains (String dquote "") p = false /\
  contains (String squote "") p = false.

Lemma body_before_comment (index : nat) :
  index < length p ->
  CStyle.body tw (p ++ "//" ++ c) line_num v index = ([], Next v index).
Proof.
  intros Hi. destruct no_quote as [Hd Hs].
  destruct (get_in_range p index Hi) as [a Ha].
  assert (Hg : String.get index (p ++ "//" ++ c) = Some a)
    by (rewrite <- append_correct1; assumption).
  assert (Hne : forall b, contains (String b "") p = false -> a <> b)
    by (intros b Hb ->; exact (absent_char _ _ _ Hb Ha)).
  assert (S1 : forall t, (slice (p ++ "//" ++ c) index (index + 2)
                          =? String "/" t)%string = false).
  { intros t. apply String.eqb_neq. intros E.
    apply slice_first_char in E. rewrite Hg in E. injection E as ->.
    exact (Hne _ no_slash eq_refl). }
  unfold CStyle.body. rewrite in_state_0. simpl Nat.eqb. cbv iota.
  rewrite (S1 "/"), (S1 "*"), getitem_nat, Hg.
  replace (Ascii.eqb a dquote) with false
    by (symmetry; apply Ascii.eqb_neq; now apply Hne).
  replace (Ascii.eqb a squote) with false
    by (symmetry; apply Ascii.eqb_neq; now apply Hne).
  reflexivity.
Qed.

Lemma body_at_comment :
  CStyle.body tw (p ++ "//" ++ c) line_num v (length p)
  = ([Yield c line_num
            (Z.of_nat (length p + 2)
             + Z.of_nat (occurrences tab p) * (tw - 1))],
     Break v).
Proof.
  unfold CStyle.body. rewrite in_state_0. simpl Nat.eqb. cbv iota.
  rewrite slice_window.
  rewrite <- (Nat.add_0_r (length p)) at 1. rewrite drop_app_length.
  simpl drop. simpl take. rewrite String.eqb_refl.
  unfold slice_from, count, slice. rewrite drop_app_length. simpl drop.
  rewrite Nat.sub_0_r, take_app_length. simpl take.
  rewrite occurrences_app. simpl occurrences. rewrite Nat.add_0_r.
  reflexivity.
Qed.

Lemma while_to_comment (fuel : nat) :
  forall index,
    index <= length p -> length p - index < fuel ->
    while (CStyle.body tw) fuel (p ++ "//" ++ c) line_num v index
    = ([Yield c line_num
              (Z.of_nat (length p + 2)
               + Z.of_nat (occurrences tab p) * (tw - 1))],
       Done v).
Proof.
  assert (Hlen : length (p ++ "//" ++ c) - 1 = length p + 1 + length c)
    by (rewrite !length_append; simpl; lia).
  induction fuel as [|fuel IH]; intros index Hi Hf; [lia|].
  rewrite while_unfold by lia.
  destruct (Nat.eq_dec index (length p)) as [->|Hne].
  - now rewrite body_at_comment.
  - rewrite body_before_comment, IH by lia. reflexivity.
Qed.
End LineComment.

(** X12. A line that consists of a text without [/] and without quote,
    then [//], then anything: read in state 0, [c_style] yields one tuple
    for it, the text after the [//] to the end of the line, with the index
    after the [//] plus [SPACES_FOR_TAB - 1] for every TAB before it, and
    stays in state 0. *)
Theorem c_style_line_comment (tw : Z) (p c : string) (line_num : nat)
        (v : CStyle.vars) :
  CStyle.state v = 0 ->
  contains "/" p = false ->
  contains (String dquote "") p = false ->
  contains (String squote "") p = false ->
  scan_line CStyle.skip (CStyle.body tw) (p ++ "//" ++ c) line_num v
  = ([Yield c line_num
            (Z.of_nat (length p + 2)
             + Z.of_nat (occurrences tab p) * (tw - 1))],
     Done v).
Proof.
  intros Hs Hp Hd Hq. unfold scan_line, CStyle.skip. cbn [forallb].
  rewrite (contains_app p "//" c). cbn [negb andb].
  apply while_to_comment; auto; try lia.
  rewrite !length_append. simpl. lia.
Qed.

Lemma c_style_line_comment_witness :
  contains "/" (tabs 1 "foo(); ") = false /\
  contains (String dquote "") (tabs 1 "foo(); ") = false /\
  contains (String squote "") (tabs 1 "foo(); ") = false /\
  scan_line CStyle.skip (CStyle.body 4)
            (tabs 1 "foo(); " ++ "//" ++ " hello // there" ++ nl) 3 CStyle.init
  = ([Yield (" hello // there" ++ nl)%string 3 13], Done CStyle.init).
Proof.
  split; [reflexivity|]. split; [reflexivity|]. split; [reflexivity|].
  exact (c_style_line_comment 4 (tabs 1 "foo(); ")
           (" hello // there" ++ nl) 3 CStyle.init
           eq_refl eq_refl eq_refl eq_refl).
Defined.

(** ** A line with one block comment *)

Lemma append_assoc (a b c : string) :
  ((a ++ b) ++ c = a ++ b ++ c)%string.
Proof. induction a as [|x a IH]; simpl; [reflexivity|now rewrite IH]. Qed.

Lemma take_app_short (s b : string) :
  forall n, n <= length s -> take n (s ++ b) = take n s.
Proof.
  induction s as [|y s IH]; intros n Hn; simpl in Hn.
  - assert (n = 0) by lia. subst. reflexivity.
  - destruct n as [|n]; [reflexivity|]. simpl. f_equal. apply IH. lia.
Qed.

Lemma take_drop_app (a b : string) (n : nat) :
  forall i, i + n <= length a ->
            take n (drop i (a ++ b)) = take n (drop i a).
Proof.
  induction a as [|x a IH]; intros i Hi.
  - simpl in Hi. assert (i = 0) by lia. assert (n = 0) by lia. subst.
    reflexivity.
  - destruct i as [|i].
    + change (take n (String x a ++ b) = take n (String x a)).
      apply take_app_short. simpl in *. lia.
    + simpl. apply IH. simpl in Hi. lia.
Qed.

Lemma search_first (sub c r : string) :
  (forall i, i < length c -> prefix sub (drop i (c ++ sub ++ r)) = false) ->
  search sub (c ++ sub ++ r) = Some (length c).
Proof.
  induction c as [|x c IH]; intros H; simpl append; rewrite search_unfold.
  - now rewrite prefix_app.
  - pose proof (H 0 ltac:(simpl; lia)) as H0. cbn [drop append] in H0.
    rewrite H0. rewrite IH; [reflexivity|].
    intros i Hi. apply (H (S i)). simpl. lia.
Qed.

(** A character that neither starts a comment nor opens a string. *)
Lemma c_body_plain_char (tw : Z) (line : string) (line_num : nat)
      (v : CStyle.vars) (index : nat) (a : ascii) :
  CStyle.state v = 0 ->
  String.get index line = Some a ->
  a <> "/"%char -> a <> dquote -> a <> squote ->
  CStyle.body tw line line_num v index = ([], Next v index).
Proof.
  intros Hs Hg H1 H2 H3.
  assert (S1 : forall t, (slice line index (index + 2)
                          =? String "/" t)%string = false).
  { intros t. apply String.eqb_neq. intros E.
    apply slice_first_char in E. rewrite Hg in E. injection E as ->.
    now apply H1. }
  unfold CStyle.body. rewrite Hs. simpl Nat.eqb. cbv iota.
  rewrite (S1 "/"), (S1 "*"), getitem_nat, Hg.
  replace (Ascii.eqb a dquote) with false
    by (symmetry; now apply Ascii.eqb_neq).
  replace (Ascii.eqb a squote) with false
    by (symmetry; now apply Ascii.eqb_neq).
  reflexivity.
Qed.

Lemma c_while_plain (tw : Z) (line : string) (line_num : nat)
      (v : CStyle.vars) (from : nat) :
  CStyle.state v = 0 ->
  (forall i, from <= i -> i < length line - 1 ->
             exists a, String.get i line = Some a /\
                       a <> "/"%char /\ a <> dquote /\ a <> squote) ->
  forall fuel index,
    from <= index -> length line - 1 - index <= fuel ->
    while (CStyle.body tw) fuel line line_num v index = ([], Done v).
Proof.
  intros Hs Hplain. induction fuel as [|fuel IH]; intros index Hfrom Hf; simpl;
    destruct (Nat.ltb_spec index (length line - 1)) as [Hlt|Hge];
    try reflexivity; try lia.
  destruct (Hplain index Hfrom Hlt) as (a & Ha & H1 & H2 & H3).
  rewrite (c_body_plain_char tw line line_num v index a Hs Ha H1 H2 H3).
  rewrite IH by lia. reflexivity.
Qed.

Lemma plain_chars (s : string) (i : nat) :
  contains "/" s = false ->
  contains (String dquote "") s = false ->
  contains (String squote "") s = false ->
  i < length s ->
  exists a, String.get i s = Some a /\
            a <> "/"%char /\ a <> dquote /\ a <> squote.
Proof.
  intros H1 H2 H3 Hi. destruct (get_in_range s i Hi) as [a Ha].
  exists a. split; [assumption|].
  repeat split; intros ->;
    [exact (absent_char _ _ _ H1 Ha)
    |exact (absent_char _ _ _ H2 Ha)
    |exact (absent_char _ _ _ H3 Ha)].
Qed.

(** X13. A line that consists of a text without [/] and without quote,
    then [/*], a comment, [*/], and again a text without [/] and without
    quote: read in state 0, [c_style] yields one tuple for it, the text
    between [/*] and the first [*/], with the index after the [/*] plus
    [SPACES_FOR_TAB - 1] for every TAB before it, and stays in state 0. *)
Theorem c_style_block_on_one_line (tw : Z) (p c r : string) (line_num : nat)
        (v : CStyle.vars) :
  CStyle.state v = 0 ->
  contains "/" p = false ->
  contains (String dquote "") p = false ->
  contains (String squote "") p = false ->
  contains "*/" (c ++ "*") = false ->
  contains "/" r = false ->
  contains (String dquote "") r = false ->
  contains (String squote "") r = false ->
  scan_line CStyle.skip (CStyle.body tw) (p ++ "/*" ++ c ++ "*/" ++ r)
            line_num v
  = ([Yield c line_num
            (Z.of_nat (length p + 2)
             + Z.of_nat (occurrences tab p) * (tw - 1))],
     Done v).
Proof.
  intros Hs Hp1 Hp2 Hp3 Hc Hr1 Hr2 Hr3.
  set (line := (p ++ "/*" ++ c ++ "*/" ++ r)%string).
  assert (Hlen : length line = length p + 2 + length c + 2 + length r)
    by (unfold line; rewrite !length_append; simpl; lia).
  assert (Hv : CStyle.set_state v 0 = v)
    by (destruct v; simpl in *; subst; reflexivity).
  assert (Hfind : find "*/" line (length p + 2) = Some (length p + 2 + length c)).
  { unfold find. destruct (Nat.leb_spec (length p + 2) (length line)); [|lia].
    unfold line. rewrite drop_app_length.
    change (drop 2 ("/*" ++ c ++ "*/" ++ r)) with (c ++ "*/" ++ r)%string.
    rewrite search_first; [reflexivity|].
    intros i Hi. destruct (prefix "*/" (drop i (c ++ "*/" ++ r))) eqn:E;
      [|reflexivity].
    exfalso. apply prefix_take in E. simpl length in E.
    change (c ++ "*/" ++ r)%string with (c ++ "*" ++ "/" ++ r)%string in E.
    rewrite <- append_assoc in E.
    rewrite take_drop_app in E by (rewrite length_append; simpl; lia).
    pose proof (absent_slice "*/" (c ++ "*") i ltac:(discriminate) Hc) as A.
    rewrite slice_window in A. simpl length in A.
    rewrite E in A. discriminate A. }
  assert (Hat : CStyle.body tw line line_num v (length p)
                = ([Yield c line_num
                          (Z.of_nat (length p + 2)
                           + Z.of_nat (occurrences tab p) * (tw - 1))],
                   Next v (length p + 2 + length c + 1))).
  { assert (Hnil : forall s : string, (s ++ "")%string = s)
      by (induction s as [|x s IH]; simpl; congruence).
    assert (F1 : slice line (length p) (length p + 2) = "/*").
    { rewrite slice_window. unfold line.
      rewrite <- (Nat.add_0_r (length p)). rewrite drop_app_length.
      reflexivity. }
    assert (F2 : slice line (length p + 2) (length p + 2 + length c) = c).
    { rewrite slice_window. unfold line. rewrite drop_app_length.
      change (drop 2 ("/*" ++ c ++ "*/" ++ r)) with (c ++ "*/" ++ r)%string.
      rewrite <- (Nat.add_0_r (length c)). rewrite take_app_length.
      apply Hnil. }
    assert (F3 : count tab line 0 (length p + 2) = occurrences tab p).
    { unfold count, slice. rewrite Nat.sub_0_r.
      change (drop 0 line) with line. unfold line.
      rewrite take_app_length.
      change (take 2 ("/*" ++ c ++ "*/" ++ r)) with "/*".
      rewrite occurrences_app. simpl. lia. }
    unfold CStyle.body. rewrite Hs. simpl Nat.eqb. cbv iota.
    rewrite F1. change (("/*" =? "//")%string) with false.
    change (("/*" =? "/*")%string) with true. cbv iota.
    rewrite Hfind, F2, F3, Hv. reflexivity. }
  assert (Hbefore : forall index, index < length p ->
             CStyle.body tw line line_num v index = ([], Next v index)).
  { intros index Hi.
    destruct (plain_chars p index Hp1 Hp2 Hp3 Hi) as (a & Ha & H1 & H2 & H3).
    apply (c_body_plain_char tw line line_num v index a); auto.
    unfold line. now rewrite <- append_correct1. }
  assert (Hafter : forall fuel index,
             length p + 2 + length c + 2 <= index ->
             length line - 1 - index <= fuel ->
             while (CStyle.body tw) fuel line line_num v index = ([], Done v)).
  { apply c_while_plain; [assumption|]. intros i Hi Hlt.
    assert (Hir : i - (length p + 2 + length c + 2) < length r) by lia.
    destruct (plain_chars r _ Hr1 Hr2 Hr3 Hir) as (a & Ha & H1 & H2 & H3).
    exists a. split; [|auto].
    assert (Hpre : length (p ++ "/*" ++ c ++ "*/")
                   = length p + 2 + length c + 2)
      by (rewrite !length_append; simpl; lia).
    assert (Hline : ((p ++ "/*" ++ c ++ "*/") ++ r)%string = line)
      by (unfold line; rewrite !append_assoc; reflexivity).
    rewrite (append_correct2 (p ++ "/*" ++ c ++ "*/") r) in Ha.
    rewrite Hline, Hpre in Ha.
    replace (i - (length p + 2 + length c + 2)
             + (length p + 2 + length c + 2)) with i in Ha by lia.
    exact Ha. }
  assert (Hwhile : forall fuel index,
             index <= length p ->
             length line - 1 - index <= fuel ->
             while (CStyle.body tw) fuel line line_num v index
             = ([Yield c line_num
                       (Z.of_nat (length p + 2)
                        + Z.of_nat (occurrences tab p) * (tw - 1))],
                Done v)).
  { induction fuel as [|fuel IH]; intros index Hi Hf; [lia|].
    rewrite while_unfold by lia.
    destruct (Nat.eq_dec index (length p)) as [->|Hne].
    - rewrite Hat, Hafter by lia. reflexivity.
    - rewrite Hbefore, IH by lia. reflexivity. }
  unfold scan_line, CStyle.skip. cbn [forallb].
  fold line.
  replace (contains "/*" line) with true
    by (symmetry; apply (contains_app p "/*" (c ++ "*/" ++ r))).
  rewrite !andb_false_r. cbn [negb andb].
  apply Hwhile; lia.
Qed.

Lemma c_style_block_on_one_line_witness :
  contains "*/" (" a * b " ++ "*") = false /\
  scan_line CStyle.skip (CStyle.body 4)
            (tabs 1 "int x; " ++ "/*" ++ " a * b " ++ "*/" ++ " int y;" ++ nl)
            1 CStyle.init
  = ([Yield " a * b " 1 13], Done CStyle.init).
Proof.
  split; [reflexivity|].
  exact (c_style_block_on_one_line 4 (tabs 1 "int x; ") " a * b "
           (" int y;" ++ nl) 1 CStyle.init
           eq_refl eq_refl eq_refl eq_refl eq_refl eq_refl eq_refl eq_refl).
Defined.

(** ** A line with one markup comment *)

Lemma xml_body_plain_char (tw : Z) (line : string) (line_num : nat)
      (v : XmlStyle.vars) (index : nat) (a : ascii) :
  XmlStyle.state v = 0 ->
  String.get index line = Some a ->
  a <> "<"%char ->
  XmlStyle.body tw line line_num v index = ([], Next v index).
Proof.
  intros Hs Hg H1.
  assert (S1 : (slice line index (index + 4) =? "<!--")%string = false).
  { apply String.eqb_neq. intros E.
    apply slice_first_char in E. rewrite Hg in E. injection E as ->.
    now apply H1. }
  unfold XmlStyle.body. rewrite Hs. simpl Nat.eqb. cbv iota.
  now rewrite S1.
Qed.

Lemma xml_while_plain (tw : Z) (line : string) (line_num : nat)
      (v : XmlStyle.vars) (from : nat) :
  XmlStyle.state v = 0 ->
  (forall i, from <= i -> i < length line - 1 ->
             exists a, String.get i line = Some a /\ a <> "<"%char) ->
  forall fuel index,
    from <= index -> length line - 1 - index <= fuel ->
    while (XmlStyle.body tw) fuel line line_num v index = ([], Done v).
Proof.
  intros Hs Hplain. induction fuel as [|fuel IH]; intros index Hfrom Hf; simpl;
    destruct (Nat.ltb_spec index (length line - 1)) as [Hlt|Hge];
    try reflexivity; try lia.
  destruct (Hplain index Hfrom Hlt) as (a & Ha & H1).
  rewrite (xml_body_plain_char tw line line_num v index a Hs Ha H1).
  rewrite IH by lia. reflexivity.
Qed.

Lemma no_angle_chars (s : string) (i : nat) :
  contains "<" s = false -> i < length s ->
  exists a, String.get i s = Some a /\ a <> "<"%char.
Proof.
  intros H1 Hi. destruct (get_in_range s i Hi) as [a Ha].
  exists a. split; [assumption|]. intros ->. exact (absent_char _ _ _ H1 Ha).
Qed.

(** X14. A line that consists of a text without [<], then [<!--], a
    comment, [-->], and again a text without [<]: read in state 0,
    [xml_style] yields one tuple for it and stays in state 0.  The text of
    the tuple is everything after the [<!--], the [-->] and what follows it
    included, and its index is the raw index after the [<!--], whatever
    TABs precede it. *)
Theorem xml_style_comment_on_one_line (tw : Z) (p c r : string)
        (line_num : nat) :
  contains "<" p = false ->
  contains "-->" ("-" ++ c ++ "--") = false ->
  contains "<" r = false ->
  scan_line XmlStyle.skip (XmlStyle.body tw) (p ++ "<!--" ++ c ++ "-->" ++ r)
            line_num XmlStyle.init
  = ([Yield (c ++ "-->" ++ r)%string line_num (Z.of_nat (length p + 4))],
     Done XmlStyle.init).
Proof.
  intros Hp Hc Hr.
  set (line := (p ++ "<!--" ++ c ++ "-->" ++ r)%string).
  set (v := XmlStyle.init).
  assert (Hlen : length line = length p + 4 + length c + 3 + length r)
    by (unfold line; rewrite !length_append; simpl; lia).
  assert (Hfind : find "-->" line (length p + 3)
                  = Some (length p + 4 + length c)).
  { unfold find. destruct (Nat.leb_spec (length p + 3) (length line)); [|lia].
    unfold line. rewrite drop_app_length.
    change (drop 3 ("<!--" ++ c ++ "-->" ++ r))
      with (("-" ++ c) ++ "-->" ++ r)%string.
    rewrite search_first; [simpl; f_equal; lia|].
    intros i Hi. destruct (prefix "-->" (drop i (("-" ++ c) ++ "-->" ++ r)))
      eqn:E; [|reflexivity].
    exfalso. apply prefix_take in E. simpl length in E.
    assert (Hsplit : ((("-" ++ c) ++ "-->" ++ r)
                      = ("-" ++ c ++ "--") ++ ">" ++ r)%string).
    { rewrite !append_assoc. reflexivity. }
    rewrite Hsplit in E.
    rewrite take_drop_app in E
      by (simpl in *; rewrite length_append; simpl; lia).
    pose proof (absent_slice "-->" ("-" ++ c ++ "--") i ltac:(discriminate) Hc)
      as A.
    rewrite slice_window in A. simpl length in A.
    rewrite E in A. discriminate A. }
  assert (F1 : slice line (length p) (length p + 4) = "<!--").
  { rewrite slice_window. unfold line.
    rewrite <- (Nat.add_0_r (length p)). rewrite drop_app_length.
    reflexivity. }
  assert (F2 : slice_from line (length p + 4) = (c ++ "-->" ++ r)%string).
  { unfold slice_from, line. rewrite drop_app_length. reflexivity. }
  assert (Hat : XmlStyle.body tw line line_num v (length p)
                = ([Yield (c ++ "-->" ++ r)%string line_num
                          (Z.of_nat (length p + 4))],
                   Next v (length p + 4 + length c + 2))).
  { unfold XmlStyle.body. simpl XmlStyle.state. simpl Nat.eqb. cbv iota.
    rewrite F1. change (("<!--" =? "<!--")%string) with true. cbv iota.
    rewrite Hfind, F2. reflexivity. }
  assert (Hbefore : forall index, index < length p ->
             XmlStyle.body tw line line_num v index = ([], Next v index)).
  { intros index Hi.
    destruct (no_angle_chars p index Hp Hi) as (a & Ha & H1).
    apply (xml_body_plain_char tw line line_num v index a); auto.
    unfold line. now rewrite <- append_correct1. }
  assert (Hafter : forall fuel index,
             length p + 4 + length c + 3 <= index ->
             length line - 1 - index <= fuel ->
             while (XmlStyle.body tw) fuel line line_num v index
             = ([], Done v)).
  { apply xml_while_plain; [reflexivity|]. intros i Hi Hlt.
    assert (Hir : i - (length p + 4 + length c + 3) < length r) by lia.
    destruct (no_angle_chars r _ Hr Hir) as (a & Ha & H1).
    exists a. split; [|auto].
    assert (Hpre : length (p ++ "<!--" ++ c ++ "-->")
                   = length p + 4 + length c + 3)
      by (rewrite !length_append; simpl; lia).
    assert (Hline : ((p ++ "<!--" ++ c ++ "-->") ++ r)%string = line)
      by (unfold line; rewrite !append_assoc; reflexivity).
    rewrite (append_correct2 (p ++ "<!--" ++ c ++ "-->") r) in Ha.
    rewrite Hline, Hpre in Ha.
    replace (i - (length p + 4 + length c + 3)
             + (length p + 4 + length c + 3)) with i in Ha by lia.
    exact Ha. }
  assert (Hwhile : forall fuel index,
             index <= length p ->
             length line - 1 - index <= fuel ->
             while (XmlStyle.body tw) fuel line line_num v index
             = ([Yield (c ++ "-->" ++ r)%string line_num
                       (Z.of_nat (length p + 4))],
                Done v)).
  { induction fuel as [|fuel IH]; intros index Hi Hf; [lia|].
    rewrite while_unfold by lia.
    destruct (Nat.eq_dec index (length p)) as [->|Hne].
    - rewrite Hat, Hafter by lia. reflexivity.
    - rewrite Hbefore, IH by lia. reflexivity. }
  unfold scan_line, XmlStyle.skip. cbn [forallb]. fold line.
  replace (contains "<!--" line) with true
    by (symmetry; apply (contains_app p "<!--" (c ++ "-->" ++ r))).
  cbn [negb andb].
  apply Hwhile; lia.
Qed.

Lemma xml_style_comment_on_one_line_witness :
  contains "<" (tabs 2 "") = false /\
  contains "-->" ("-" ++ " hi " ++ "--") = false /\
  contains "<" (" tail" ++ nl) = false /\
  scan_line XmlStyle.skip (XmlStyle.body 4)
            (tabs 2 "" ++ "<!--" ++ " hi " ++ "-->" ++ " tail" ++ nl)
            1 XmlStyle.init
  = ([Yield (" hi " ++ "-->" ++ " tail" ++ nl)%string 1 6],
     Done XmlStyle.init).
Proof.
  split; [reflexivity|]. split; [reflexivity|]. split; [reflexivity|].
  exact (xml_style_comment_on_one_line 4 (tabs 2 "") " hi " (" tail" ++ nl) 1
           eq_refl eq_refl eq_refl).
Defined.

(** ** How the generators end *)

(** X15. On every input [c_style] and [xml_style] end normally: each loop
    over a line comes to its end, no index is out of range, also not the
    [line[index-1]] of the escape test, and [string_start] is bound
    whenever it is read. *)
Theorem c_style_and_xml_style_end_normally (tw : Z) (lines : list string) :
  (exists v, ending (c_style tw lines) = Done v) /\
  (exists v, ending (xml_style tw lines) = Done v).
Proof.
  split; [apply c_style_returns|apply xml_style_returns].
Qed.

(** X16. On every input [py_style] either ends normally or raises the
    UnboundLocalError for [comment_block]; it raises nothing else (no
    IndexError, and [block_start] is bound whenever it is read), and each
    loop over a line comes to its end. *)
Theorem py_style_raises_only_unbound_flag (tw : Z) (lines : list string) :
  (exists v, ending (py_style tw lines) = Done v) \/
  ending (py_style tw lines) = Raised (UnboundLocalError "comment_block").
Proof. apply py_style_returns_or_raises. Qed.
